(** * portascrape: a shallow embedding of the wait engine, the options
      validator, the element locator and the table helpers.

    The repository holds several snapshots of the one library file.  Three
    of them are embedded here, each in a module of its own:

    - [Portascrape] : src/portascrape.js        ([waitForFunction], [$], ...)
    - [Part002]     : src/unnamed/part_002      ([validateOptions], [wait]),
      with [$] in [Part002Locator]
    - [Part003]     : src/unnamed/part_003      ([wait], [$], [$table], ...),
      with [$text] in [Part003Text]

    JavaScript identifiers that start with [$] are written with the prefix
    [ps_]: [ps.$] is [ps_dollar], [ps.$table] is [ps_table].

    What is modelled of the platform:
    - numbers are integers ([Z]); strings are byte strings;
    - a DOM tree is an inductive [node]; a selector engine is a parameter
      [sel_matches : string -> node -> bool] and [querySelectorAll] filters
      the descendants of a node, in document order, with it;
    - a promise is its settlement state; timers, animation frames and the
      mutation observer are handles of a per-call state that events fire. *)

From Stdlib Require Import String Ascii List ZArith Bool Arith Lia.
From Stdlib Require Import DecimalString.
Import ListNotations.
Open Scope string_scope.
Open Scope nat_scope.

(* ===================================================================== *)
(** ** JavaScript strings                                                 *)
(* ===================================================================== *)

Module JsString.

(** White space removed by [String.prototype.trim], on bytes: TAB, LF, VT,
    FF, CR and SPACE. *)
Definition is_white_space (c : ascii) : bool :=
  let n := nat_of_ascii c in
  ((9 <=? n) && (n <=? 13)) || (n =? 32).

Fixpoint drop_white (l : list ascii) : list ascii :=
  match l with
  | [] => []
  | c :: r => if is_white_space c then drop_white r else l
  end.

(** [s.trim()] *)
Definition trim (s : string) : string :=
  string_of_list_ascii
    (rev (drop_white (rev (drop_white (list_ascii_of_string s))))).

(** [s.indexOf(sub) > -1], which is also [s.includes(sub)] and, for a
    regular expression that is a plain literal, [/sub/.test(s)]. *)
Definition includes (s sub : string) : bool :=
  match String.index 0 sub s with
  | Some _ => true
  | None => false
  end.

Definition is_digit (c : ascii) : bool :=
  let n := nat_of_ascii c in (48 <=? n) && (n <=? 57).

Fixpoint digits_value (l : list ascii) (acc : N) : N :=
  match l with
  | [] => acc
  | c :: r => digits_value r (acc * 10 + N.of_nat (nat_of_ascii c - 48))%N
  end.

(** A non-empty string of decimal digits, read as a natural number. *)
Definition parse_digits (s : string) : option N :=
  match list_ascii_of_string s with
  | [] => None
  | l => if forallb is_digit l then Some (digits_value l 0%N) else None
  end.

(** A canonical array index: ["0"], or digits without a leading zero,
    below 2^32 - 1.  [for ... in] enumerates such keys first. *)
Definition array_index (s : string) : option N :=
  match parse_digits s with
  | Some n =>
      let canonical :=
        match s with
        | String c EmptyString => true
        | String c _ => negb (Ascii.eqb c "0")
        | EmptyString => false
        end in
      if canonical && (n <? 4294967295)%N then Some n else None
  | None => None
  end.

(** [String(z)] for an integer. *)
Definition of_Z (z : Z) : string := NilZero.string_of_int (Z.to_int z).

End JsString.

(* ===================================================================== *)
(** ** The DOM tree                                                       *)
(* ===================================================================== *)

Module Dom.

(** The nodes the library looks at: text nodes (nodeType 3), comments
    (nodeType 8) and elements (nodeType 1) with their child nodes. *)
#[warnings="-register-all"]
Inductive node : Type :=
| TextNode (data : string)
| CommentNode (data : string)
| Element (tag : string) (attrs : list (string * string))
          (children : list node).

Definition TEXT_NODE : nat := 3.

Definition nodeType (n : node) : nat :=
  match n with
  | TextNode _ => 3
  | CommentNode _ => 8
  | Element _ _ _ => 1
  end.

Definition childNodes (n : node) : list node :=
  match n with
  | Element _ _ children => children
  | _ => []
  end.

(** [node.textContent]: the data of a text or comment node; for an
    element the concatenation of the text content of its children,
    comments left out. *)
Fixpoint textContent (n : node) : string :=
  match n with
  | TextNode data => data
  | CommentNode data => data
  | Element _ _ children =>
      (fix go (l : list node) : string :=
         match l with
         | [] => EmptyString
         | CommentNode _ :: r => go r
         | c :: r => textContent c ++ go r
         end) children
  end.

(** The descendants of a node in document order (preorder), the node
    itself left out. *)
Fixpoint descendants (n : node) : list node :=
  match n with
  | Element _ _ children =>
      (fix go (l : list node) : list node :=
         match l with
         | [] => []
         | c :: r => c :: descendants c ++ go r
         end) children
  | _ => []
  end.

Definition is_element (n : node) : bool :=
  match n with Element _ _ _ => true | _ => false end.

Section Selectors.

(** The selector engine of the host: does this element match this
    selector? *)
Variable sel_matches : string -> node -> bool.

(** [root.querySelectorAll(selector)] *)
Definition querySelectorAll (root : node) (selector : string)
  : list node :=
  filter (fun n => is_element n && sel_matches selector n)
         (descendants root).

(** [root.querySelector(selector)]: the first match, or [None] for
    JavaScript's [null]. *)
Definition querySelector (root : node) (selector : string)
  : option node :=
  hd_error (querySelectorAll root selector).

End Selectors.

(** An engine for the selectors the library itself writes: a type
    selector ([tr]) or a comma-separated list of them ([td, th]). *)
Fixpoint split_commas (l : list ascii) (cur : list ascii)
  : list string :=
  match l with
  | [] => [JsString.trim (string_of_list_ascii (rev cur))]
  | c :: r =>
      if Ascii.eqb c ","
      then JsString.trim (string_of_list_ascii (rev cur))
             :: split_commas r []
      else split_commas r (c :: cur)
  end.

Definition type_selector_matches (selector : string) (n : node) : bool :=
  match n with
  | Element tag _ _ =>
      existsb (String.eqb tag)
              (split_commas (list_ascii_of_string selector) [])
  | _ => false
  end.

End Dom.

(* ===================================================================== *)
(** ** JavaScript values, objects and completions                         *)
(* ===================================================================== *)

Module Js.
Import Dom.

(** A regular expression is its source and what [test] answers. *)
Inductive value : Type :=
| VUndefined
| VNull
| VBool (b : bool)
| VNum (n : Z)
| VStr (s : string)
| VRegExp (source : string) (test : string -> bool)
| VNode (n : node).

(** What a [throw] carries. *)
Inductive exn : Type :=
| JsError (message : string)
| JsTypeError (message : string)
| JsReferenceError (message : string)
| JsThrown (v : value).

(** How a call ends: it returns, or it throws. *)
Inductive completion (A : Type) : Type :=
| Normal (a : A)
| Throw (e : exn).
Arguments Normal {A} a.
Arguments Throw {A} e.

Definition bind {A B : Type} (c : completion A)
           (k : A -> completion B) : completion B :=
  match c with
  | Normal a => k a
  | Throw e => Throw e
  end.

(** ToBoolean *)
Definition truthy (v : value) : bool :=
  match v with
  | VUndefined | VNull => false
  | VBool b => b
  | VNum n => negb (n =? 0)%Z
  | VStr s => negb (String.eqb s EmptyString)
  | VRegExp _ _ | VNode _ => true
  end.

(** [a && b] on values already computed. *)
Definition js_and (a b : value) : value :=
  if truthy a then b else a.

(** [typeof v === "number"], [typeof v === "string"],
    [v instanceof RegExp] *)
Definition is_number (v : value) : bool :=
  match v with VNum _ => true | _ => false end.

Definition is_string (v : value) : bool :=
  match v with VStr _ => true | _ => false end.

Definition is_RegExp (v : value) : bool :=
  match v with VRegExp _ _ => true | _ => false end.

(** [v === "literal"] *)
Definition strict_eq_string (v : value) (s : string) : bool :=
  match v with VStr s' => String.eqb s' s | _ => false end.

(** ToString *)
Definition to_string (v : value) : string :=
  match v with
  | VUndefined => "undefined"
  | VNull => "null"
  | VBool true => "true"
  | VBool false => "false"
  | VNum n => JsString.of_Z n
  | VStr s => s
  | VRegExp source _ => "/" ++ source ++ "/"
  | VNode _ => "[object HTMLElement]"
  end.

(** ToNumber, [None] for NaN.  Numbers being integers here, a string
    converts when it is, once trimmed, empty or an optionally signed run
    of decimal digits; the other numeric literals (fractions, exponents,
    hexadecimal, Infinity) have no value in this model. *)
Definition to_number (v : value) : option Z :=
  match v with
  | VUndefined => None
  | VNull => Some 0%Z
  | VBool b => Some (if b then 1 else 0)%Z
  | VNum n => Some n
  | VStr s =>
      match JsString.trim s with
      | EmptyString => Some 0%Z
      | String "+" t => option_map Z.of_N (JsString.parse_digits t)
      | String "-" t =>
          option_map (fun n => (- Z.of_N n)%Z) (JsString.parse_digits t)
      | t => option_map Z.of_N (JsString.parse_digits t)
      end
  | VRegExp _ _ | VNode _ => None
  end.

(** [v > 0] *)
Definition gt_zero (v : value) : bool :=
  match to_number v with
  | Some n => (0 <? n)%Z
  | None => false
  end.

(** An object with string keys, in the order the keys were created. *)
Definition obj : Type := list (string * value).

(** [o[key]] *)
Fixpoint obj_get (o : obj) (key : string) : value :=
  match o with
  | [] => VUndefined
  | (k, v) :: r => if String.eqb k key then v else obj_get r key
  end.

(** [key in o], for own properties *)
Definition obj_has (o : obj) (key : string) : bool :=
  existsb (fun kv => String.eqb (fst kv) key) o.

(** [o[key] = v]: an existing key keeps its place, a new key goes last. *)
Fixpoint obj_set (o : obj) (key : string) (v : value) : obj :=
  match o with
  | [] => [(key, v)]
  | (k, v') :: r =>
      if String.eqb k key then (k, v) :: r
      else (k, v') :: obj_set r key v
  end.

Fixpoint insert_index (k : N * string) (l : list (N * string))
  : list (N * string) :=
  match l with
  | [] => [k]
  | h :: r =>
      if (fst k <=? fst h)%N then k :: l else h :: insert_index k r
  end.

(** The keys in the order [for (key in o)] and [Object.assign] visit
    them: array indices ascending, then the others as created. *)
Definition own_keys (o : obj) : list string :=
  let keys := map fst o in
  let indexed :=
    fold_right
      (fun k acc =>
         match JsString.array_index k with
         | Some n => insert_index (n, k) acc
         | None => acc
         end) [] keys in
  map snd indexed
  ++ filter (fun k => match JsString.array_index k with
                      | Some _ => false
                      | None => true
                      end) keys.

(** [Object.assign(target, source)]; an [undefined] source is skipped. *)
Definition obj_assign (target : obj) (source : option obj) : obj :=
  match source with
  | None => target
  | Some src =>
      fold_left (fun t key => obj_set t key (obj_get src key))
                (own_keys src) target
  end.

(** [array.includes(key)], [array.indexOf(key) >= 0] on string arrays *)
Definition array_includes (a : list string) (key : string) : bool :=
  existsb (String.eqb key) a.

(** [array[index]] *)
Definition array_get (a : list value) (index : nat) : value :=
  nth index a VUndefined.

End Js.

Module JsNotations.
Notation "x <- c ;; k" := (Js.bind c (fun x => k))
  (at level 61, c at next level, right associativity).
End JsNotations.

(* ===================================================================== *)
(** ** One in-flight wait: the promise and the handles it holds           *)
(* ===================================================================== *)

Module Engine.
Import Js.

(** The promise of the call. *)
Inductive outcome : Type :=
| Pending
| Resolved (v : value)
| Rejected (e : exn).

(** How the next poll was scheduled. *)
Inductive poll_handle : Type :=
| ByTimer (delay : value)        (* setTimeout(poll, delay) *)
| ByFrame.                       (* requestAnimationFrame(poll) *)

Section Call.

(** What the predicate reads and may change: the document, and any
    variables the closure holds. *)
Context {env : Type}.

(** The user's zero-argument function [fn]. *)
Definition predicate : Type := env -> completion value * env.

Record wstate : Type := mkWstate {
  world : env;
  promise : outcome;
  timeoutTimer : option value;   (* the armed timeout, with its delay *)
  observer : bool;               (* the observer is connected *)
  pollHandle : option poll_handle; (* the scheduled poll *)
  evaluations : nat;             (* calls of fn so far *)
  timersCreated : nat;           (* calls of setTimeout *)
  framesRequested : nat;         (* calls of requestAnimationFrame *)
  observersCreated : nat;        (* MutationObservers constructed *)
  uncaught : list exn            (* exceptions that left a callback *)
}.

Definition initial (w : env) : wstate :=
  mkWstate w Pending None false None 0 0 0 0 [].

Definition set_world (w : env) (s : wstate) : wstate :=
  mkWstate w (promise s) (timeoutTimer s) (observer s) (pollHandle s)
           (evaluations s) (timersCreated s) (framesRequested s)
           (observersCreated s) (uncaught s).

(** [resolve(v)] and [reject(e)] of the promise: the first call
    settles it, later calls do nothing. *)
Definition resolve (v : value) (s : wstate) : wstate :=
  match promise s with
  | Pending =>
      mkWstate (world s) (Resolved v) (timeoutTimer s) (observer s)
               (pollHandle s) (evaluations s) (timersCreated s)
               (framesRequested s) (observersCreated s) (uncaught s)
  | _ => s
  end.

Definition reject (e : exn) (s : wstate) : wstate :=
  match promise s with
  | Pending =>
      mkWstate (world s) (Rejected e) (timeoutTimer s) (observer s)
               (pollHandle s) (evaluations s) (timersCreated s)
               (framesRequested s) (observersCreated s) (uncaught s)
  | _ => s
  end.

(** [timeoutId = setTimeout(<reject>, delay)] *)
Definition arm_timeout (delay : value) (s : wstate) : wstate :=
  mkWstate (world s) (promise s) (Some delay) (observer s)
           (pollHandle s) (evaluations s) (S (timersCreated s))
           (framesRequested s) (observersCreated s) (uncaught s).

(** [clearTimeout(timeoutId)] *)
Definition clearTimeout (s : wstate) : wstate :=
  mkWstate (world s) (promise s) None (observer s) (pollHandle s)
           (evaluations s) (timersCreated s) (framesRequested s)
           (observersCreated s) (uncaught s).

(** [new MutationObserver(...)] followed by [observer.observe(...)] *)
Definition observe (s : wstate) : wstate :=
  mkWstate (world s) (promise s) (timeoutTimer s) true (pollHandle s)
           (evaluations s) (timersCreated s) (framesRequested s)
           (S (observersCreated s)) (uncaught s).

(** [observer.disconnect()] *)
Definition disconnect (s : wstate) : wstate :=
  mkWstate (world s) (promise s) (timeoutTimer s) false (pollHandle s)
           (evaluations s) (timersCreated s) (framesRequested s)
           (observersCreated s) (uncaught s).

(** [setTimeout(poll, delay)] *)
Definition setTimeout_poll (delay : value) (s : wstate) : wstate :=
  mkWstate (world s) (promise s) (timeoutTimer s) (observer s)
           (Some (ByTimer delay)) (evaluations s)
           (S (timersCreated s)) (framesRequested s)
           (observersCreated s) (uncaught s).

(** [requestAnimationFrame(poll)] *)
Definition requestAnimationFrame_poll (s : wstate) : wstate :=
  mkWstate (world s) (promise s) (timeoutTimer s) (observer s)
           (Some ByFrame) (evaluations s) (timersCreated s)
           (S (framesRequested s)) (observersCreated s) (uncaught s).

(** The scheduled poll is taken off the queue when it runs. *)
Definition take_poll (s : wstate) : wstate :=
  mkWstate (world s) (promise s) (timeoutTimer s) (observer s) None
           (evaluations s) (timersCreated s) (framesRequested s)
           (observersCreated s) (uncaught s).

(** The timeout timer is spent when it fires. *)
Definition take_timeout (s : wstate) : wstate := clearTimeout s.

(** An exception that leaves a callback of the event loop: nothing
    catches it. *)
Definition report_uncaught (e : exn) (s : wstate) : wstate :=
  mkWstate (world s) (promise s) (timeoutTimer s) (observer s)
           (pollHandle s) (evaluations s) (timersCreated s)
           (framesRequested s) (observersCreated s) (e :: uncaught s).

(** [fn()]: the call is counted and the world it leaves is kept. *)
Definition call (fn : predicate) (s : wstate)
  : completion value * wstate :=
  let (r, w) := fn (world s) in
  (r, mkWstate w (promise s) (timeoutTimer s) (observer s)
               (pollHandle s) (S (evaluations s)) (timersCreated s)
               (framesRequested s) (observersCreated s) (uncaught s)).

(** What the event loop can do to a call. *)
Inductive event : Type :=
| TimeoutFires                 (* the timeout timer expires *)
| PollFires                    (* the scheduled poll runs *)
| MutationNotified             (* the observer gets a batch of records *)
| WorldChanges (w : env).      (* the page changes under the call *)

End Call.

Arguments wstate : clear implicits.
Arguments predicate : clear implicits.
Arguments event : clear implicits.

End Engine.

(* ===================================================================== *)
(** ** src/portascrape.js                                                 *)
(* ===================================================================== *)

Module Portascrape.
Import Dom Js Engine JsNotations.

(** [var defaultOptions = Object.freeze({ timeout: 10000, polling: "raf" })] *)
Definition defaultOptions : obj :=
  [("timeout", VNum 10000); ("polling", VStr "raf")].

Definition validKeys : list string :=
  ["timeout"; "polling"; "exactText"; "containsText"; "matches"].

Definition textOptions : list string :=
  ["exactText"; "containsText"; "matches"].

Definition invalid_option (key : string) : exn :=
  JsError ("Invalid option '" ++ key ++ "' provided.").

Definition string_or_RegExp (key : string) : exn :=
  JsTypeError ("'" ++ key ++ "' must be a string or RegExp.").

Definition only_one : exn :=
  JsError
    "Only one of 'exactText', 'containsText', or 'matches' can be provided.".

(** The body of [for (var key in options)], from the key in hand on. *)
Fixpoint validate_keys (options : obj) (keys : list string)
         (providedTextOptions : nat) : completion unit :=
  match keys with
  | [] => Normal tt
  | key :: rest =>
      if negb (array_includes validKeys key)
      then Throw (invalid_option key)
      else
        provided <-
          (if array_includes textOptions key
           then
             if negb (is_string (obj_get options key))
                && negb (is_RegExp (obj_get options key))
             then Throw (string_or_RegExp key)
             else Normal (S providedTextOptions)
           else Normal providedTextOptions) ;;
        if 1 <? provided
        then Throw only_one
        else validate_keys options rest provided
  end.

(** [function validateOptions(options)] *)
Definition validateOptions (options : obj) : completion unit :=
  validate_keys options (own_keys options) 0.

Section WaitForFunction.
Context {env : Type}.
Variable fn : predicate env.
Variable options : obj.   (* the merged options *)

Definition timeout_message : string :=
  "timeout of " ++ to_string (obj_get options "timeout")
  ++ "ms exceeded waiting for function to return true".

Definition checkFunction_is_not_defined : exn :=
  JsReferenceError "checkFunction is not defined".

(** [function poll()]: both ways of scheduling the next check name
    [checkFunction], which no scope declares, so evaluating the
    argument throws before anything is scheduled. *)
Definition poll (s : wstate env) : completion unit * wstate env :=
  let (r, s1) := call fn s in
  match r with
  | Throw e => (Throw e, s1)
  | Normal result =>
      if truthy result
      then (Normal tt, resolve result (clearTimeout s1))
      else if is_number (obj_get options "polling")
           then (Throw checkFunction_is_not_defined, s1)
           else (Throw checkFunction_is_not_defined, s1)
  end.

(** The function handed to [new Promise]. *)
Definition executor (s : wstate env) : completion unit * wstate env :=
  let (r, s1) := call fn s in
  match r with
  | Throw e => (Throw e, s1)
  | Normal result =>
      if truthy result
      then (Normal tt, resolve result s1)
      else
        let s2 := arm_timeout (obj_get options "timeout") s1 in
        if strict_eq_string (obj_get options "polling") "mutation"
        then (Normal tt, observe s2)
        else poll s2
  end.

(** [new Promise(executor)]: an exception of the executor rejects. *)
Definition new_Promise (w : env) : wstate env :=
  let (r, s) := executor (initial w) in
  match r with
  | Throw e => reject e s
  | Normal _ => s
  end.

(** The timeout callback rejects with the message, a string. *)
Definition on_timeout (s : wstate env) : wstate env :=
  reject (JsThrown (VStr timeout_message)) s.

(** The callback of the [MutationObserver]. *)
Definition on_mutation (s : wstate env) : wstate env :=
  let (r, s1) := call fn s in
  match r with
  | Throw e => report_uncaught e s1
  | Normal result =>
      if truthy result
      then resolve result (clearTimeout (disconnect s1))
      else s1
  end.

(** One turn of the event loop; an event whose handle is not live does
    not happen. *)
Definition step (ev : event env) (s : wstate env) : wstate env :=
  match ev with
  | TimeoutFires =>
      match timeoutTimer s with
      | Some _ => on_timeout (take_timeout s)
      | None => s
      end
  | PollFires =>
      match pollHandle s with
      | Some _ =>
          let (r, s1) := poll (take_poll s) in
          match r with
          | Throw e => report_uncaught e s1
          | Normal _ => s1
          end
      | None => s
      end
  | MutationNotified =>
      if observer s then on_mutation s else s
  | WorldChanges w => set_world w s
  end.

Definition run (trace : list (event env)) (s : wstate env)
  : wstate env :=
  fold_left (fun s ev => step ev s) trace s.

End WaitForFunction.

(** [function waitForFunction(fn, options)] *)
Definition merge (options : option obj) : obj :=
  obj_assign (obj_assign [] (Some defaultOptions)) options.

Definition waitForFunction {env : Type} (fn : predicate env)
           (options : option obj) (w : env)
  : completion (wstate env) :=
  _ <- validateOptions (merge options) ;;
  Normal (new_Promise fn (merge options) w).

Section Helpers.
Variable sel_matches : string -> node -> bool.

Definition of_option (o : option node) : value :=
  match o with Some n => VNode n | None => VNull end.

(** [textContent.includes(x)]: a regular expression is refused. *)
Definition string_includes (text : string) (x : value)
  : completion bool :=
  match x with
  | VRegExp _ _ =>
      Throw (JsTypeError
        "First argument to String.prototype.includes must not be a regular expression")
  | _ => Normal (JsString.includes text (to_string x))
  end.

(** [x.test(text)]: only a regular expression has the method. *)
Definition call_test (x : value) (text : string) : completion bool :=
  match x with
  | VRegExp _ test => Normal (test text)
  | _ => Throw (JsTypeError "options.matches.test is not a function")
  end.

(** The [for] loop of the predicate of [$]. *)
Fixpoint first_by_text (options : obj) (elements : list node)
  : completion value :=
  match elements with
  | [] => Normal VNull
  | element :: rest =>
      let text := textContent element in
      if truthy (obj_get options "exactText")
         && strict_eq_string (obj_get options "exactText") text
      then Normal (VNode element)
      else
        contains <-
          (if truthy (obj_get options "containsText")
           then string_includes text (obj_get options "containsText")
           else Normal false) ;;
        if contains then Normal (VNode element)
        else
          matched <-
            (if truthy (obj_get options "matches")
             then call_test (obj_get options "matches") text
             else Normal false) ;;
          if matched then Normal (VNode element)
          else first_by_text options rest
  end.

(** The arrow function [$] hands to [waitForFunction]; [options] is the
    argument of [$], not the merged object. *)
Definition dollar_predicate (selector : string) (options : option obj)
           (document : node) : completion value :=
  match options with
  | Some o =>
      if truthy (obj_get o "exactText")
         || truthy (obj_get o "containsText")
         || truthy (obj_get o "matches")
      then first_by_text o (querySelectorAll sel_matches document selector)
      else Normal (of_option (querySelector sel_matches document selector))
  | None => Normal (of_option (querySelector sel_matches document selector))
  end.

(** [function $(selector, options)] *)
Definition ps_dollar (selector : string) (options : option obj)
           (document : node) : completion (wstate node) :=
  waitForFunction
    (fun d => (dollar_predicate selector options d, d))
    options document.

(** The continuation of [$table]: what is done with the element. *)
Definition ps_table (tableElement : node) : list (list value) :=
  map (fun row =>
         map (fun cell => VStr (JsString.trim (textContent cell)))
             (querySelectorAll sel_matches row "td, th"))
      (querySelectorAll sel_matches tableElement "tr").

(** [headers.forEach(function (header, index) { ... })] *)
Fixpoint fill_row (headers : list string) (index : nat)
         (rowData : list value) (rowObject : obj) : obj :=
  match headers with
  | [] => rowObject
  | header :: rest =>
      fill_row rest (S index) rowData
               (obj_set rowObject header (array_get rowData index))
  end.

(** The continuation of [$tableWithHeaders]; [rows.shift()] of an empty
    array is [undefined], whose [querySelectorAll] cannot be read. *)
Definition ps_tableWithHeaders (tableElement : node)
  : completion (list obj) :=
  match querySelectorAll sel_matches tableElement "tr" with
  | [] =>
      Throw (JsTypeError
        "Cannot read properties of undefined (reading 'querySelectorAll')")
  | first :: rows =>
      let headers :=
        map (fun header => JsString.trim (textContent header))
            (querySelectorAll sel_matches first "th") in
      Normal
        (map (fun row =>
                let rowData :=
                  map (fun cell =>
                         VStr (JsString.trim (textContent cell)))
                      (querySelectorAll sel_matches row "td") in
                fill_row headers 0 rowData [])
             rows)
  end.

End Helpers.

End Portascrape.

(* ===================================================================== *)
(** ** src/unnamed/part_002                                               *)
(* ===================================================================== *)

Module Part002.
Import Js Engine JsNotations.

Definition defaultOptions : obj :=
  [("timeout", VNum 10000); ("polling", VStr "raf")].

Definition validKeys : list string :=
  ["timeout"; "polling"; "exactText"; "containsText"; "matches"].

Definition textOptions : list string :=
  ["exactText"; "containsText"; "matches"].

Definition invalid_option (key : string) : exn :=
  JsError ("Invalid option '" ++ key ++ "' provided.").

Definition must_be_a_string (key : string) : exn :=
  JsTypeError ("'" ++ key ++ "' must be a string.").

Definition must_be_a_RegExp (key : string) : exn :=
  JsTypeError ("'" ++ key ++ "' must be a RegExp.").

Definition only_one : exn :=
  JsError
    "Only one of 'exactText', 'containsText', or 'matches' can be provided.".

(** The checks made on a text option before it is counted;
    [/text/.test(key)] looks for the lower-case letters [text]. *)
Definition check_text_option (options : obj) (key : string)
  : completion unit :=
  if JsString.includes key "text" && negb (is_string (obj_get options key))
  then Throw (must_be_a_string key)
  else if String.eqb key "matches"
          && negb (is_RegExp (obj_get options key))
       then Throw (must_be_a_RegExp key)
       else Normal tt.

Fixpoint validate_keys (options : obj) (keys : list string)
         (providedTextOptions : nat) : completion unit :=
  match keys with
  | [] => Normal tt
  | key :: rest =>
      if negb (array_includes validKeys key)
      then Throw (invalid_option key)
      else
        provided <-
          (if array_includes textOptions key
           then _ <- check_text_option options key ;;
                Normal (S providedTextOptions)
           else Normal providedTextOptions) ;;
        if 1 <? provided
        then Throw only_one
        else validate_keys options rest provided
  end.

(** [function validateOptions(options)] *)
Definition validateOptions (options : obj) : completion unit :=
  validate_keys options (own_keys options) 0.

Definition merge (options : option obj) : obj :=
  obj_assign (obj_assign [] (Some defaultOptions)) options.

Section Wait.
Context {env : Type}.
Variable fn : predicate env.
Variable options : obj.   (* the merged options *)

Definition timeout_message : string :=
  "timeout of " ++ to_string (obj_get options "timeout")
  ++ "ms exceeded waiting for function to return true".

(** [function poll()] *)
Definition poll (s : wstate env) : completion unit * wstate env :=
  let (r, s1) := call fn s in
  match r with
  | Throw e => (Throw e, s1)
  | Normal result =>
      if truthy result
      then (Normal tt, resolve result (clearTimeout s1))
      else if is_number (obj_get options "polling")
           then (Normal tt,
                 setTimeout_poll (obj_get options "polling") s1)
           else (Normal tt, requestAnimationFrame_poll s1)
  end.

(** The function handed to [new Promise]. *)
Definition executor (s : wstate env) : completion unit * wstate env :=
  let (r, s1) := call fn s in
  match r with
  | Throw e => (Throw e, s1)
  | Normal result =>
      if truthy result
      then (Normal tt, resolve result s1)
      else
        let s2 :=
          if gt_zero (obj_get options "timeout")
          then arm_timeout (obj_get options "timeout") s1
          else s1 in
        if strict_eq_string (obj_get options "polling") "mutation"
        then (Normal tt, observe s2)
        else poll s2
  end.

Definition new_Promise (w : env) : wstate env :=
  let (r, s) := executor (initial w) in
  match r with
  | Throw e => reject e s
  | Normal _ => s
  end.

(** The timeout callback rejects with the message, a string. *)
Definition on_timeout (s : wstate env) : wstate env :=
  reject (JsThrown (VStr timeout_message)) s.

Definition on_mutation (s : wstate env) : wstate env :=
  let (r, s1) := call fn s in
  match r with
  | Throw e => report_uncaught e s1
  | Normal result =>
      if truthy result
      then resolve result (clearTimeout (disconnect s1))
      else s1
  end.

Definition step (ev : event env) (s : wstate env) : wstate env :=
  match ev with
  | TimeoutFires =>
      match timeoutTimer s with
      | Some _ => on_timeout (take_timeout s)
      | None => s
      end
  | PollFires =>
      match pollHandle s with
      | Some _ =>
          let (r, s1) := poll (take_poll s) in
          match r with
          | Throw e => report_uncaught e s1
          | Normal _ => s1
          end
      | None => s
      end
  | MutationNotified =>
      if observer s then on_mutation s else s
  | WorldChanges w => set_world w s
  end.

Definition run (trace : list (event env)) (s : wstate env)
  : wstate env :=
  fold_left (fun s ev => step ev s) trace s.

End Wait.

(** [function wait(fn, options)] *)
Definition wait {env : Type} (fn : predicate env)
           (options : option obj) (w : env)
  : completion (wstate env) :=
  _ <- validateOptions (merge options) ;;
  Normal (new_Promise fn (merge options) w).

End Part002.

(* ===================================================================== *)
(** ** src/unnamed/part_003                                               *)
(* ===================================================================== *)

Module Part003.
Import Dom Js Engine JsNotations.

Definition defaultOptions : obj :=
  [("timeout", VNum 10000); ("polling", VStr "raf")].

Definition validKeys : list string :=
  ["timeout"; "polling"; "exactText"; "containsText"; "matches"].

Definition textOptions : list string :=
  ["exactText"; "containsText"; "matches"].

Definition invalid_option (key : string) : exn :=
  JsError ("Invalid option '" ++ key ++ "' provided.").

Definition must_be_a_string (key : string) : exn :=
  JsTypeError ("'" ++ key ++ "' must be a string.").

Definition must_be_a_RegExp (key : string) : exn :=
  JsTypeError ("'" ++ key ++ "' must be a RegExp.").

Definition only_one : exn :=
  JsError
    "Only one of 'exactText', 'containsText', or 'matches' can be provided.".

Definition check_text_option (options : obj) (key : string)
  : completion unit :=
  if JsString.includes key "text" && negb (is_string (obj_get options key))
  then Throw (must_be_a_string key)
  else if String.eqb key "matches"
          && negb (is_RegExp (obj_get options key))
       then Throw (must_be_a_RegExp key)
       else Normal tt.

(** The first test of the loop reads [validKeys.indexOf(key) >= 0]: it
    throws for the keys that are in [validKeys]. *)
Fixpoint validate_keys (options : obj) (keys : list string)
         (providedTextOptions : nat) : completion unit :=
  match keys with
  | [] => Normal tt
  | key :: rest =>
      if array_includes validKeys key
      then Throw (invalid_option key)
      else
        provided <-
          (if array_includes textOptions key
           then _ <- check_text_option options key ;;
                Normal (S providedTextOptions)
           else Normal providedTextOptions) ;;
        if 1 <? provided
        then Throw only_one
        else validate_keys options rest provided
  end.

(** [function validateOptions(options)] *)
Definition validateOptions (options : obj) : completion unit :=
  validate_keys options (own_keys options) 0.

Section Wait.
Context {env : Type}.
Variable fn : predicate env.
Variable options : obj.   (* the merged options *)

Definition timeout_error : exn :=
  JsError ("timeout of " ++ to_string (obj_get options "timeout")
           ++ "ms exceeded waiting for function to return true").

(** [function poll()] *)
Definition poll (s : wstate env) : completion unit * wstate env :=
  let (r, s1) := call fn s in
  match r with
  | Throw e => (Throw e, s1)
  | Normal result =>
      if truthy result
      then (Normal tt, resolve result (clearTimeout s1))
      else if is_number (obj_get options "polling")
           then (Normal tt,
                 setTimeout_poll (obj_get options "polling") s1)
           else (Normal tt, requestAnimationFrame_poll s1)
  end.

(** The function handed to [new Promise]. *)
Definition executor (s : wstate env) : completion unit * wstate env :=
  let (r, s1) := call fn s in
  match r with
  | Throw e => (Throw e, s1)
  | Normal result =>
      if truthy result
      then (Normal tt, resolve result s1)
      else
        let s2 :=
          if truthy (obj_get options "timeout")
             && gt_zero (obj_get options "timeout")
          then arm_timeout (obj_get options "timeout") s1
          else s1 in
        if strict_eq_string (obj_get options "polling") "mutation"
        then (Normal tt, observe s2)
        else poll s2
  end.

(** [new Promise(executor)]: an exception of the executor rejects. *)
Definition new_Promise (w : env) : wstate env :=
  let (r, s) := executor (initial w) in
  match r with
  | Throw e => reject e s
  | Normal _ => s
  end.

(** The timeout callback: [reject(error)] and nothing else. *)
Definition on_timeout (s : wstate env) : wstate env :=
  reject timeout_error s.

(** The callback of the [MutationObserver]. *)
Definition on_mutation (s : wstate env) : wstate env :=
  let (r, s1) := call fn s in
  match r with
  | Throw e => report_uncaught e s1
  | Normal result =>
      if truthy result
      then resolve result (clearTimeout (disconnect s1))
      else s1
  end.

(** One turn of the event loop; an event whose handle is not live does
    not happen. *)
Definition step (ev : event env) (s : wstate env) : wstate env :=
  match ev with
  | TimeoutFires =>
      match timeoutTimer s with
      | Some _ => on_timeout (take_timeout s)
      | None => s
      end
  | PollFires =>
      match pollHandle s with
      | Some _ =>
          let (r, s1) := poll (take_poll s) in
          match r with
          | Throw e => report_uncaught e s1
          | Normal _ => s1
          end
      | None => s
      end
  | MutationNotified =>
      if observer s then on_mutation s else s
  | WorldChanges w => set_world w s
  end.

Definition run (trace : list (event env)) (s : wstate env)
  : wstate env :=
  fold_left (fun s ev => step ev s) trace s.

End Wait.

Definition merge (options : option obj) : obj :=
  obj_assign (obj_assign [] (Some defaultOptions)) options.

(** [function wait(fn, options)] *)
Definition wait {env : Type} (fn : predicate env)
           (options : option obj) (w : env)
  : completion (wstate env) :=
  _ <- validateOptions (merge options) ;;
  Normal (new_Promise fn (merge options) w).

Section Helpers.
Variable sel_matches : string -> node -> bool.

Definition of_option (o : option node) : value :=
  match o with Some n => VNode n | None => VNull end.

(** [function search(element, predicate)], from child [j] on. *)
Fixpoint search_from (element : node)
         (predicate : node -> completion value)
         (children : list node) : completion value :=
  match children with
  | [] => Normal VNull
  | child :: rest =>
      if nodeType child =? TEXT_NODE
      then
        found <- predicate child ;;
        if truthy found then Normal (VNode element)
        else search_from element predicate rest
      else search_from element predicate rest
  end.

Definition search (element : node)
           (predicate : node -> completion value) : completion value :=
  search_from element predicate (childNodes element).

(** [x.test(text)]: only a regular expression has the method. *)
Definition call_test (x : value) (text : string) : completion value :=
  match x with
  | VRegExp _ test => Normal (VBool (test text))
  | _ => Throw (JsTypeError "options.matches.test is not a function")
  end.

(** The three functions handed to [search]. *)
Definition exact_predicate (options : obj) (child : node)
  : completion value :=
  Normal
    (js_and (VStr (textContent child))
            (VBool (strict_eq_string (obj_get options "exactText")
                      (JsString.trim (textContent child))))).

Definition contains_predicate (options : obj) (child : node)
  : completion value :=
  Normal
    (js_and (VStr (textContent child))
       (js_and (obj_get options "containsText")
          (VBool (JsString.includes (textContent child)
                    (to_string (obj_get options "containsText")))))).

Definition matches_predicate (options : obj) (child : node)
  : completion value :=
  if truthy (VStr (textContent child))
  then if truthy (obj_get options "matches")
       then call_test (obj_get options "matches")
                      (JsString.trim (textContent child))
       else Normal (obj_get options "matches")
  else Normal (VStr (textContent child)).

(** The [for] loop of the predicate; [var result] belongs to the
    function, so it keeps its value from one element to the next. *)
Fixpoint first_by_text (options : obj) (elements : list node)
         (result : value) : completion value :=
  match elements with
  | [] => Normal VNull
  | element :: rest =>
      r1 <- (if truthy (obj_get options "exactText")
                || truthy (obj_get options "containsText")
             then search element (exact_predicate options)
             else Normal result) ;;
      r2 <- (if truthy (obj_get options "containsText")
             then search element (contains_predicate options)
             else Normal r1) ;;
      r3 <- (if truthy (obj_get options "matches")
             then search element (matches_predicate options)
             else Normal r2) ;;
      if truthy r3 then Normal r3
      else first_by_text options rest r3
  end.

(** The function [$] hands to [wait]; [options] is the argument of
    [$], not the merged object. *)
Definition dollar_predicate (selector : string) (options : option obj)
           (document : node) : completion value :=
  match options with
  | None => Normal (of_option (querySelector sel_matches document selector))
  | Some o =>
      if negb (truthy (obj_get o "exactText"))
         && negb (truthy (obj_get o "containsText"))
         && negb (truthy (obj_get o "matches"))
      then Normal (of_option (querySelector sel_matches document selector))
      else first_by_text o
             (querySelectorAll sel_matches document selector) VUndefined
  end.

(** [function $(selector, options)] *)
Definition ps_dollar (selector : string) (options : option obj)
           (document : node) : completion (wstate node) :=
  wait (fun d => (dollar_predicate selector options d, d))
       options document.

(** [cell.textContent && cell.textContent.trim()] *)
Definition trimmed_text (n : node) : value :=
  js_and (VStr (textContent n)) (VStr (JsString.trim (textContent n))).

(** The continuation of [$table]. *)
Definition ps_table (tableElement : node) : list (list value) :=
  map (fun row =>
         map trimmed_text (querySelectorAll sel_matches row "td, th"))
      (querySelectorAll sel_matches tableElement "tr").

(** [cell.textContent ? cell.textContent.trim() : null] *)
Definition cell_text (cell : node) : value :=
  if truthy (VStr (textContent cell))
  then VStr (JsString.trim (textContent cell))
  else VNull.

(** [headers.forEach(function (header, index) { ... })] *)
Fixpoint fill_row (headers : list value) (index : nat)
         (rowData : list value) (rowObject : obj) : obj :=
  match headers with
  | [] => rowObject
  | header :: rest =>
      fill_row rest (S index) rowData
        (match header with
         | VNull => rowObject
         | _ => obj_set rowObject (to_string header)
                        (array_get rowData index)
         end)
  end.

(** The continuation of [$tableWithHeaders]; [rows[0]] of an empty
    array is [undefined], whose [querySelectorAll] cannot be read. *)
Definition ps_tableWithHeaders (tableElement : node)
  : completion (list obj) :=
  match querySelectorAll sel_matches tableElement "tr" with
  | [] =>
      Throw (JsTypeError
        "Cannot read properties of undefined (reading 'querySelectorAll')")
  | first :: rest =>
      let headers :=
        map trimmed_text (querySelectorAll sel_matches first "th") in
      Normal
        (map (fun row =>
                let rowData :=
                  map cell_text
                      (querySelectorAll sel_matches row "td") in
                fill_row headers 0 rowData [])
             rest)
  end.

End Helpers.

End Part003.

(* ===================================================================== *)
(** ** src/unnamed/part_002: the locator                                  *)
(* ===================================================================== *)

Module Part002Locator.
Import Dom Js Engine JsNotations.

Section Helpers.
Variable sel_matches : string -> node -> bool.

Definition of_option (o : option node) : value :=
  match o with Some n => VNode n | None => VNull end.

(** [function search(element, predicate)], from child [j] on; the
    function has no [return] after its loop, so it ends in [undefined]. *)
Fixpoint search_from (element : node)
         (predicate : node -> completion value)
         (children : list node) : completion value :=
  match children with
  | [] => Normal VUndefined
  | child :: rest =>
      if nodeType child =? TEXT_NODE
      then
        found <- predicate child ;;
        if truthy found then Normal (VNode element)
        else search_from element predicate rest
      else search_from element predicate rest
  end.

Definition search (element : node)
           (predicate : node -> completion value) : completion value :=
  search_from element predicate (childNodes element).

(** [x.test(text)]: only a regular expression has the method. *)
Definition call_test (x : value) (text : string) : completion value :=
  match x with
  | VRegExp _ test => Normal (VBool (test text))
  | _ => Throw (JsTypeError "options.matches.test is not a function")
  end.

(** The three functions handed to [search]. *)
Definition exact_predicate (options : obj) (child : node)
  : completion value :=
  Normal (VBool (strict_eq_string (obj_get options "exactText")
                   (JsString.trim (textContent child)))).

Definition contains_predicate (options : obj) (child : node)
  : completion value :=
  Normal (VBool (JsString.includes (textContent child)
                   (to_string (obj_get options "containsText")))).

Definition matches_predicate (options : obj) (child : node)
  : completion value :=
  call_test (obj_get options "matches") (JsString.trim (textContent child)).

(** The [for] loop of the predicate; [var result] belongs to the
    function, so it keeps its value from one element to the next. *)
Fixpoint first_by_text (options : obj) (elements : list node)
         (result : value) : completion value :=
  match elements with
  | [] => Normal VNull
  | element :: rest =>
      r1 <- (if truthy (obj_get options "exactText")
                || truthy (obj_get options "containsText")
             then search element (exact_predicate options)
             else Normal result) ;;
      r2 <- (if truthy (obj_get options "containsText")
             then search element (contains_predicate options)
             else Normal r1) ;;
      r3 <- (if truthy (obj_get options "matches")
             then search element (matches_predicate options)
             else Normal r2) ;;
      if truthy r3 then Normal r3
      else first_by_text options rest r3
  end.

(** The arrow function [$] hands to [wait]; [options] is the argument of
    [$], not the merged object. *)
Definition dollar_predicate (selector : string) (options : option obj)
           (document : node) : completion value :=
  match options with
  | None => Normal (of_option (querySelector sel_matches document selector))
  | Some o =>
      if negb (truthy (obj_get o "exactText"))
         && negb (truthy (obj_get o "containsText"))
         && negb (truthy (obj_get o "matches"))
      then Normal (of_option (querySelector sel_matches document selector))
      else first_by_text o
             (querySelectorAll sel_matches document selector) VUndefined
  end.

(** The predicate as [wait] takes it: it reads the document and leaves
    it as it is. *)
Definition dollar_fn (selector : string) (options : option obj)
  : predicate node :=
  fun d => (dollar_predicate selector options d, d).

(** [function $(selector, options)] *)
Definition ps_dollar (selector : string) (options : option obj)
           (document : node) : completion (wstate node) :=
  Part002.wait (dollar_fn selector options) options document.

End Helpers.

End Part002Locator.

(* ===================================================================== *)
(** ** src/unnamed/part_003: the text helper                              *)
(* ===================================================================== *)

Module Part003Text.
Import Dom Js.

(** The continuation of [$text]: [return element.textContent]. *)
Definition ps_text (element : node) : value :=
  VStr (textContent element).

End Part003Text.

(* ===================================================================== *)
(** ** What the further properties are stated with                        *)
(* ===================================================================== *)

Module Notions.
Import Dom Js Engine.

(** Every key of the object is one of the five recognized keys. *)
Definition all_recognized (o : obj) : Prop :=
  forall k, obj_has o k = true ->
            array_includes Portascrape.validKeys k = true.

(** At most one of [exactText], [containsText], [matches] is present. *)
Definition at_most_one_matcher (o : obj) : Prop :=
  forall k1 k2,
    obj_has o k1 = true -> obj_has o k2 = true ->
    array_includes Portascrape.textOptions k1 = true ->
    array_includes Portascrape.textOptions k2 = true ->
    k1 = k2.

(** The guard of the timeout in src/unnamed/part_003. *)
Definition arms_timeout (options : obj) : bool :=
  truthy (obj_get options "timeout") && gt_zero (obj_get options "timeout").

Definition is_timeout {env : Type} (ev : event env) : bool :=
  match ev with TimeoutFires => true | _ => false end.

Definition is_poll {env : Type} (ev : event env) : bool :=
  match ev with PollFires => true | _ => false end.

Definition is_notification {env : Type} (ev : event env) : bool :=
  match ev with MutationNotified => true | _ => false end.

(** How many events of a kind a sequence of events holds. *)
Definition count_events {env : Type} (kind : event env -> bool)
           (trace : list (event env)) : nat :=
  length (filter kind trace).

(** The element has a child text node whose data holds [s]. *)
Definition has_text_child_containing (s : string) (element : node)
  : bool :=
  existsb (fun child =>
             match child with
             | TextNode data => JsString.includes data s
             | _ => false
             end)
          (childNodes element).

(** The element has a child text node that is not empty and whose
    trimmed data passes [test]. *)
Definition has_text_child_matching (test : string -> bool)
           (element : node) : bool :=
  existsb (fun child =>
             match child with
             | TextNode data =>
                 negb (String.eqb data EmptyString)
                 && test (JsString.trim data)
             | _ => false
             end)
          (childNodes element).

(** The string carries no white space at either end. *)
Definition is_trimmed (s : string) : Prop := JsString.trim s = s.


(** The handle [poll] leaves behind when it schedules the next check. *)
Definition mode_handle (options : obj) : poll_handle :=
  if is_number (obj_get options "polling")
  then ByTimer (obj_get options "polling")
  else ByFrame.

(** The promise after one more call of [resolve(v)]. *)
Definition settle_with (v : value) (p : outcome) : outcome :=
  match p with Pending => Resolved v | _ => p end.

End Notions.

(* ===================================================================== *)
(** ** Further predicates and documents used as examples                  *)
(* ===================================================================== *)

Module Scenarios.
Import Dom Js Engine.

(** A predicate that counts its calls: [null] for the first [n] of them,
    the string "ready" from then on. *)
Definition ready_after (n : nat) : predicate nat :=
  fun calls =>
    (if calls <? n then Normal VNull else Normal (VStr "ready"), S calls).

(** [<body><div>loading</div></body>] *)
Definition loading_page : node :=
  Element "body" [] [Element "div" [] [TextNode "loading"]].

(** [<body><div>loading</div><h1>Example Domain</h1><h1>More</h1></body>] *)
Definition loaded_page : node :=
  Element "body" []
    [Element "div" [] [TextNode "loading"];
     Element "h1" [] [TextNode "Example Domain"];
     Element "h1" [] [TextNode "More"]].

(** [<body><p><b>Total:</b> 42 items </p><p></p></body>] *)
Definition totals_page : node :=
  Element "body" []
    [Element "p" []
       [Element "b" [] [TextNode "Total:"]; TextNode " 42 items "];
     Element "p" [] [TextNode EmptyString]].

End Scenarios.

(* ===================================================================== *)
(** ** What the claims are stated with                                    *)
(* ===================================================================== *)

Module Spec.
Import Dom Js Engine.

(** The number of text options among some keys. *)
Definition text_keys (keys : list string) : nat :=
  length (filter (array_includes Portascrape.textOptions) keys).

(** The merged options ask for mutation mode. *)
Definition is_mutation (options : obj) : bool :=
  strict_eq_string (obj_get options "polling") "mutation".

(** The poller that belongs to the polling mode is live. *)
Definition poller_live {env : Type} (options : obj) (s : wstate env)
  : Prop :=
  if is_mutation options then observer s = true
  else pollHandle s <> None.

(** No observer is connected and no poll is scheduled. *)
Definition no_poller {env : Type} (s : wstate env) : Prop :=
  observer s = false /\ pollHandle s = None.


(** The predicate returns a falsy value whenever it is called. *)
Definition always_falsy {env : Type} (fn : predicate env) : Prop :=
  forall w, exists v w', fn w = (Normal v, w') /\ truthy v = false.

(** The element has a child text node whose trimmed data is [s]. *)
Definition has_text_child_equal (s : string) (element : node) : bool :=
  existsb (fun child =>
             match child with
             | TextNode data => String.eqb (JsString.trim data) s
             | _ => false
             end)
          (childNodes element).

End Spec.

(* ===================================================================== *)
(** ** Predicates and documents used as examples                          *)
(* ===================================================================== *)

Module Examples.
Import Dom Js Engine.

(** [function () { return false; }] *)
Definition never : predicate unit :=
  fun w => (Normal (VBool false), w).

(** [function () { return "ready"; }] *)
Definition ready : predicate unit :=
  fun w => (Normal (VStr "ready"), w).



(** An element that holds one text node. *)
Definition leaf (tag text : string) : node :=
  Element tag [] [TextNode text].



(** [<body><p>hello</p></body>] *)
Definition hello_page : node :=
  Element "body" [] [leaf "p" "hello"].

(** [<body>
      <h1><b>Example Domain</b></h1>
      <h1> Example Domain </h1>
      <h1>Example Domain</h1>
    </body>] *)
Definition example_page : node :=
  Element "body" []
    [Element "h1" [] [leaf "b" "Example Domain"];
     leaf "h1" " Example Domain ";
     leaf "h1" "Example Domain"].

End Examples.

(* ===================================================================== *)
(** * Properties                                                          *)
(* ===================================================================== *)

Import Dom Js Engine JsNotations Spec Notions.

#[local] Arguments array_includes : simpl never.

(** ** Objects and their keys *)

Section ObjectFacts.




Lemma obj_set_keeps_key (o : obj) (k key : string) (v : value) :
  In key (map fst o) -> In key (map fst (obj_set o k v)).
Proof.
  induction o as [|[k' v'] r IH]; simpl; [tauto|].
  destruct (String.eqb k' k); simpl; tauto.
Qed.

Lemma obj_assign_keeps_key (target : obj) (source : option obj)
      (key : string) :
  In key (map fst target) -> In key (map fst (obj_assign target source)).
Proof.
  destruct source as [src|]; simpl; auto.
  generalize (own_keys src) as keys. intros keys. revert target.
  induction keys as [|k r IH]; simpl; intros target H; auto.
  apply IH. now apply obj_set_keeps_key.
Qed.


(** A key that is not an array index is enumerated. *)
Lemma own_keys_in (o : obj) (key : string) :
  In key (map fst o) -> JsString.array_index key = None ->
  In key (own_keys o).
Proof.
  intros Hin Hidx. unfold own_keys. apply in_or_app. right.
  apply filter_In. split; auto. now rewrite Hidx.
Qed.

(** Without array indices among the keys, enumeration follows creation. *)
Lemma own_keys_plain (o : obj) :
  (forall k, In k (map fst o) -> JsString.array_index k = None) ->
  own_keys o = map fst o.
Proof.
  unfold own_keys. generalize (map fst o) as keys.
  induction keys as [|k r IH]; intros H; simpl; auto.
  rewrite (H k (or_introl eq_refl)).
  assert (Hr : forall k', In k' r -> JsString.array_index k' = None)
    by (intros k' Hk; apply H; now right).
  specialize (IH Hr).
  assert (E : fold_right
                (fun k acc =>
                   match JsString.array_index k with
                   | Some n => insert_index (n, k) acc
                   | None => acc
                   end) [] r = []).
  { clear IH H. induction r as [|k' r' IHr]; simpl; auto.
    rewrite (Hr k' (or_introl eq_refl)).
    apply IHr. intros k'' Hk''. apply Hr. now right. }
  rewrite E in *. simpl in *. now rewrite IH.
Qed.

Lemma obj_has_In (o : obj) (key : string) :
  obj_has o key = true <-> In key (map fst o).
Proof.
  unfold obj_has. rewrite existsb_exists. split.
  - intros [[k v] [Hin E]]. simpl in E. apply String.eqb_eq in E. subst.
    apply in_map_iff. now exists (key, v).
  - intros Hin. apply in_map_iff in Hin as [[k v] [E Hin]].
    simpl in E. subst. exists (key, v). split; auto.
    simpl. apply String.eqb_refl.
Qed.

Lemma array_includes_In (a : list string) (key : string) :
  array_includes a key = true <-> In key a.
Proof.
  unfold array_includes. rewrite existsb_exists. split.
  - intros [x [Hin E]]. apply String.eqb_eq in E. now subst.
  - intros Hin. exists key. split; auto. apply String.eqb_refl.
Qed.

(** Two distinct members that pass a filter leave it two long. *)
Lemma filter_two (f : string -> bool) (l : list string) (a b : string) :
  In a l -> In b l -> a <> b -> f a = true -> f b = true ->
  2 <= length (filter f l).
Proof.
  intros Ha Hb Hne Fa Fb.
  assert (Ia : In a (filter f l)) by (apply filter_In; auto).
  assert (Ib : In b (filter f l)) by (apply filter_In; auto).
  destruct (filter f l) as [|x [|y r]]; simpl in *; try tauto; try lia.
  destruct Ia as [<-|[]]. destruct Ib as [E|[]]. congruence.
Qed.

End ObjectFacts.

(** ** The options validator *)

Section ValidatorFacts.

Lemma valid_key_not_index (key : string) :
  array_includes Portascrape.validKeys key = true ->
  JsString.array_index key = None.
Proof.
  intros H. apply array_includes_In in H. simpl in H.
  repeat (destruct H as [<-|H]; [reflexivity|]). destruct H.
Qed.

Lemma text_key_is_valid (key : string) :
  array_includes Portascrape.textOptions key = true ->
  array_includes Portascrape.validKeys key = true.
Proof.
  intros H. apply array_includes_In in H. simpl in H.
  repeat (destruct H as [<-|H]; [reflexivity|]). destruct H.
Qed.

(** None of the three text options holds the lower-case letters the
    test [/text/] looks for. *)
Lemma text_key_lacks_text (key : string) :
  array_includes Portascrape.textOptions key = true ->
  JsString.includes key "text" = false.
Proof.
  intros H. apply array_includes_In in H. simpl in H.
  repeat (destruct H as [<-|H]; [reflexivity|]). destruct H.
Qed.


Lemma present_text_keys (options : obj) (k1 k2 : string) :
  obj_has options k1 = true -> obj_has options k2 = true -> k1 <> k2 ->
  array_includes Portascrape.textOptions k1 = true ->
  array_includes Portascrape.textOptions k2 = true ->
  2 <= text_keys (own_keys options).
Proof.
  intros P1 P2 Hne T1 T2. unfold text_keys.
  apply (filter_two _ _ k1 k2); auto; apply own_keys_in;
    try (now apply obj_has_In);
    now apply valid_key_not_index, text_key_is_valid.
Qed.

(** src/portascrape.js: with two text options ahead the loop throws. *)
Lemma portascrape_two_text_throw (options : obj) (keys : list string) :
  forall n, n <= 1 -> 2 <= n + text_keys keys ->
  exists e, Portascrape.validate_keys options keys n = Throw e.
Proof.
  unfold text_keys.
  induction keys as [|key rest IH]; intros n Hn H; simpl in H; [lia|].
  simpl. destruct (array_includes Portascrape.validKeys key); simpl;
    [| eexists; reflexivity].
  destruct (array_includes Portascrape.textOptions key); simpl in *.
  - destruct (negb (is_string (obj_get options key))
              && negb (is_RegExp (obj_get options key))); simpl;
      [eexists; reflexivity|].
    destruct n as [|[|n]]; simpl; try lia.
    + apply IH; lia.
    + eexists; reflexivity.
  - destruct n as [|[|n]]; simpl; try lia; apply IH; lia.
Qed.

(** src/unnamed/part_002: the same. *)
Lemma part002_two_text_throw (options : obj) (keys : list string) :
  forall n, n <= 1 -> 2 <= n + text_keys keys ->
  exists e, Part002.validate_keys options keys n = Throw e.
Proof.
  unfold text_keys.
  induction keys as [|key rest IH]; intros n Hn H; simpl in H; [lia|].
  simpl. destruct (array_includes Part002.validKeys key); simpl;
    [| eexists; reflexivity].
  change Part002.textOptions with Portascrape.textOptions.
  destruct (array_includes Portascrape.textOptions key); simpl in *.
  - destruct (Part002.check_text_option options key); simpl;
      [| eexists; reflexivity].
    destruct n as [|[|n]]; simpl; try lia.
    + apply IH; lia.
    + eexists; reflexivity.
  - destruct n as [|[|n]]; simpl; try lia; apply IH; lia.
Qed.

(** src/unnamed/part_003: the loop throws at the first recognized key,
    whatever came before. *)
Lemma part003_valid_key_throws (options : obj) (keys : list string) :
  forall n, n <= 1 ->
  (exists key, In key keys
               /\ array_includes Part003.validKeys key = true) ->
  exists key, array_includes Part003.validKeys key = true
              /\ Part003.validate_keys options keys n
                 = Throw (Part003.invalid_option key).
Proof.
  induction keys as [|key rest IH]; intros n Hn [k [Hin Hk]];
    [destruct Hin|].
  simpl. destruct (array_includes Part003.validKeys key) eqn:V.
  - exists key. split; auto.
  - assert (T : array_includes Part003.textOptions key = false).
    { destruct (array_includes Part003.textOptions key) eqn:T; auto.
      apply text_key_is_valid in T.
      change Portascrape.validKeys with Part003.validKeys in T.
      congruence. }
    rewrite T. simpl.
    destruct n as [|[|n]]; simpl; try lia;
      (apply IH; [lia|]; exists k; split; auto;
       destruct Hin as [->|Hin]; [congruence|auto]).
Qed.

(** src/portascrape.js: when every key is recognized and every text
    option holds a string or a regular expression, the second text
    option met raises the conflict. *)
Lemma portascrape_two_text_conflict (options : obj) (keys : list string) :
  forall n, n <= 1 -> 2 <= n + text_keys keys ->
  (forall k, In k keys -> array_includes Portascrape.validKeys k = true) ->
  (forall k, In k keys ->
     array_includes Portascrape.textOptions k = true ->
     is_string (obj_get options k) || is_RegExp (obj_get options k)
     = true) ->
  Portascrape.validate_keys options keys n = Throw Portascrape.only_one.
Proof.
  unfold text_keys.
  induction keys as [|key rest IH]; intros n Hn H V W; simpl in H; [lia|].
  simpl. rewrite (V key (or_introl eq_refl)). simpl.
  assert (V' : forall k, In k rest ->
               array_includes Portascrape.validKeys k = true)
    by (intros; apply V; now right).
  assert (W' : forall k, In k rest ->
               array_includes Portascrape.textOptions k = true ->
               is_string (obj_get options k)
               || is_RegExp (obj_get options k) = true)
    by (intros; apply W; auto; now right).
  destruct (array_includes Portascrape.textOptions key) eqn:T;
    simpl in *.
  - specialize (W key (or_introl eq_refl) T).
    apply orb_true_iff in W.
    assert (G : negb (is_string (obj_get options key))
                && negb (is_RegExp (obj_get options key)) = false)
      by (destruct W as [-> | ->]; simpl; auto using andb_false_r).
    rewrite G. simpl.
    destruct n as [|[|n]]; simpl; try lia; [|reflexivity].
    apply IH; auto; lia.
  - destruct n as [|[|n]]; simpl; try lia; apply IH; auto; lia.
Qed.

(** src/unnamed/part_002: when every key is recognized and [matches],
    if present, holds a regular expression, the second text option met
    raises the conflict. *)
Lemma part002_two_text_conflict (options : obj) (keys : list string) :
  forall n, n <= 1 -> 2 <= n + text_keys keys ->
  (forall k, In k keys -> array_includes Part002.validKeys k = true) ->
  (In "matches" keys -> is_RegExp (obj_get options "matches") = true) ->
  Part002.validate_keys options keys n = Throw Part002.only_one.
Proof.
  unfold text_keys.
  induction keys as [|key rest IH]; intros n Hn H V W; simpl in H; [lia|].
  simpl. rewrite (V key (or_introl eq_refl)). simpl.
  assert (V' : forall k, In k rest ->
               array_includes Part002.validKeys k = true)
    by (intros; apply V; now right).
  assert (W' : In "matches" rest ->
               is_RegExp (obj_get options "matches") = true)
    by (intros; apply W; now right).
  change Part002.textOptions with Portascrape.textOptions.
  destruct (array_includes Portascrape.textOptions key) eqn:T;
    simpl in *.
  - assert (G : Part002.check_text_option options key = Normal tt).
    { unfold Part002.check_text_option.
      rewrite (text_key_lacks_text key T). simpl.
      destruct (String.eqb key "matches") eqn:Em; auto.
      apply String.eqb_eq in Em. subst key.
      now rewrite (W (or_introl eq_refl)). }
    rewrite G. simpl.
    destruct n as [|[|n]]; simpl; try lia; [|reflexivity].
    apply IH; auto; lia.
  - destruct n as [|[|n]]; simpl; try lia; apply IH; auto; lia.
Qed.


End ValidatorFacts.

Section ValidatorClaims.

Lemma insert_index_in (k x : N * string) (l : list (N * string)) :
  In x (insert_index k l) <-> x = k \/ In x l.
Proof.
  induction l as [|h r IH]; simpl.
  - intuition congruence.
  - destruct (fst k <=? fst h)%N; simpl; rewrite ?IH; intuition congruence.
Qed.

(** Every key of an object is enumerated. *)
Lemma own_keys_in_all (o : obj) (key : string) :
  In key (map fst o) -> In key (own_keys o).
Proof.
  intros Hin. destruct (JsString.array_index key) as [n|] eqn:E;
    [| now apply own_keys_in].
  unfold own_keys. apply in_or_app. left.
  apply in_map_iff. exists (n, key). split; auto.
  induction (map fst o) as [|k r IH]; [destruct Hin|].
  simpl. destruct Hin as [->|Hin].
  - rewrite E. apply insert_index_in. now left.
  - destruct (JsString.array_index k); auto.
    apply insert_index_in. right. auto.
Qed.

(** src/portascrape.js rejects an object that holds a key outside
    [validKeys]. *)
Lemma portascrape_unknown_key_throws (options : obj)
      (keys : list string) :
  forall n,
  (exists key, In key keys
               /\ array_includes Portascrape.validKeys key = false) ->
  exists e, Portascrape.validate_keys options keys n = Throw e.
Proof.
  induction keys as [|key rest IH]; intros n [k [Hin Hk]];
    [destruct Hin|].
  simpl. destruct (array_includes Portascrape.validKeys key) eqn:V;
    simpl; [| eexists; reflexivity].
  assert (R : exists key, In key rest
              /\ array_includes Portascrape.validKeys key = false).
  { exists k. split; auto. destruct Hin as [->|]; [congruence|auto]. }
  destruct (array_includes Portascrape.textOptions key); simpl.
  - destruct (negb (is_string (obj_get options key))
              && negb (is_RegExp (obj_get options key))); simpl;
      [eexists; reflexivity|].
    destruct (1 <? S n); [eexists; reflexivity | now apply IH].
  - destruct (1 <? n); [eexists; reflexivity | now apply IH].
Qed.

Lemma portascrape_unknown_key_rejected (options : obj) (key : string) :
  obj_has options key = true ->
  array_includes Portascrape.validKeys key = false ->
  exists e, Portascrape.validateOptions options = Throw e.
Proof.
  intros P U. apply portascrape_unknown_key_throws.
  exists key. split; auto. now apply own_keys_in_all, obj_has_In.
Qed.

(** src/portascrape.js accepts recognized keys with at most one text
    option that holds a string or a regular expression. *)
Lemma portascrape_recognized_pass (options : obj) (keys : list string) :
  forall n, n + text_keys keys <= 1 ->
  (forall k, In k keys -> array_includes Portascrape.validKeys k = true) ->
  (forall k, In k keys ->
     array_includes Portascrape.textOptions k = true ->
     is_string (obj_get options k) || is_RegExp (obj_get options k)
     = true) ->
  Portascrape.validate_keys options keys n = Normal tt.
Proof.
  unfold text_keys.
  induction keys as [|key rest IH]; intros n H V W; simpl in *; auto.
  rewrite (V key (or_introl eq_refl)). simpl.
  destruct (array_includes Portascrape.textOptions key) eqn:T;
    simpl in *.
  - pose proof (W key (or_introl eq_refl) T) as Wk.
    apply orb_true_iff in Wk.
    assert (G : negb (is_string (obj_get options key))
                && negb (is_RegExp (obj_get options key)) = false)
      by (destruct Wk as [-> | ->]; simpl; auto using andb_false_r).
    rewrite G. simpl.
    destruct n as [|n]; simpl; try lia. apply IH; auto; lia.
  - destruct n as [|[|n]]; simpl; try lia; apply IH; auto; lia.
Qed.

(** C6 (the code at the failing inputs).  In src/unnamed/part_002 any
    value at all is accepted as [exactText] or as [containsText], a
    number and a regular expression among them, because the test
    [/text/] matches neither key; only [matches] is checked.  In
    src/portascrape.js a regular expression passes as [exactText] and a
    string passes as [matches]. *)
Theorem C6_text_options_not_type_checked :
  (forall v, Part002.validateOptions
               (Part002.merge (Some [("exactText", v)])) = Normal tt)
  /\ (forall v, Part002.validateOptions
                  (Part002.merge (Some [("containsText", v)]))
                = Normal tt)
  /\ Part002.validateOptions
       (Part002.merge (Some [("exactText", VNum 42)])) = Normal tt
  /\ Part002.validateOptions
       (Part002.merge (Some [("matches", VStr "x")]))
     = Throw (Part002.must_be_a_RegExp "matches")
  /\ Portascrape.validateOptions
       (Portascrape.merge
          (Some [("exactText", VRegExp "x" (fun _ => true))]))
     = Normal tt
  /\ Portascrape.validateOptions
       (Portascrape.merge (Some [("matches", VStr "x")])) = Normal tt.
Proof. repeat split. Qed.

(** C7 (the code at the failing inputs).  In src/unnamed/part_003 the
    membership test of the validator is inverted: the default options
    alone are refused with "Invalid option 'timeout' provided.", an
    object holding only the unknown key [foo] passes, and every call of
    [wait] throws that error for a recognized key before its promise is
    made.  src/portascrape.js has the test the right way round. *)
Theorem C7_part003_membership_test_inverted :
  Part003.validateOptions (Part003.merge None)
  = Throw (Part003.invalid_option "timeout")
  /\ Part003.validateOptions [("foo", VNum 1)] = Normal tt
  /\ (forall (env : Type) (fn : predicate env) (options : option obj)
             (w : env),
        exists key,
          array_includes Part003.validKeys key = true
          /\ Part003.wait fn options w
             = Throw (Part003.invalid_option key))
  /\ Portascrape.validateOptions (Portascrape.merge None) = Normal tt
  /\ Portascrape.validateOptions
       (Portascrape.merge (Some [("foo", VNum 1)]))
     = Throw (Portascrape.invalid_option "foo").
Proof.
  split; [reflexivity|]. split; [reflexivity|].
  split; [| split; reflexivity].
  intros env fn options w. unfold Part003.wait, Part003.validateOptions.
  destruct (part003_valid_key_throws
              (Part003.merge options) (own_keys (Part003.merge options))
              0 (Nat.le_0_l 1)) as [key [V E]].
  - exists "timeout". split; [|reflexivity].
    apply own_keys_in; [|reflexivity].
    unfold Part003.merge. apply obj_assign_keeps_key. simpl. now left.
  - exists key. split; auto. now rewrite E.
Qed.

(** C8 (counterexample).  In src/portascrape.js, [exactText: 5] next
    to [containsText: "a"] fails with the type error of [exactText],
    which is raised before the second matcher is met. *)
Lemma C8_counterexample :
  let options :=
    Portascrape.merge
      (Some [("exactText", VNum 5); ("containsText", VStr "a")]) in
  obj_has options "exactText" = true
  /\ obj_has options "containsText" = true
  /\ Portascrape.validateOptions options
     = Throw (Portascrape.string_or_RegExp "exactText")
  /\ Portascrape.string_or_RegExp "exactText" <> Portascrape.only_one.
Proof. repeat split. discriminate. Qed.

(** C8 (amended).  When two distinct keys of [exactText],
    [containsText], [matches] are both present, validation fails in each
    snapshot; the failure is the conflicting-matcher error in
    src/portascrape.js as soon as every key is recognized and every text
    option holds a string or a regular expression, and in
    src/unnamed/part_002 as soon as every key is recognized and
    [matches], if present, holds a regular expression. *)
Theorem C8_two_text_options_fail (options : obj) (k1 k2 : string) :
  obj_has options k1 = true -> obj_has options k2 = true -> k1 <> k2 ->
  array_includes Portascrape.textOptions k1 = true ->
  array_includes Portascrape.textOptions k2 = true ->
  (exists e, Portascrape.validateOptions options = Throw e)
  /\ (exists e, Part002.validateOptions options = Throw e)
  /\ (exists e, Part003.validateOptions options = Throw e)
  /\ ((forall k, obj_has options k = true ->
                 array_includes Portascrape.validKeys k = true) ->
      (forall k, obj_has options k = true ->
                 array_includes Portascrape.textOptions k = true ->
                 is_string (obj_get options k)
                 || is_RegExp (obj_get options k) = true) ->
      Portascrape.validateOptions options = Throw Portascrape.only_one)
  /\ ((forall k, obj_has options k = true ->
                 array_includes Part002.validKeys k = true) ->
      (obj_has options "matches" = true ->
       is_RegExp (obj_get options "matches") = true) ->
      Part002.validateOptions options = Throw Part002.only_one).
Proof.
  intros P1 P2 Hne T1 T2.
  pose proof (present_text_keys options k1 k2 P1 P2 Hne T1 T2) as Two.
  split; [apply portascrape_two_text_throw; simpl; lia|].
  split; [apply part002_two_text_throw; simpl; lia|].
  split.
  - destruct (part003_valid_key_throws options (own_keys options) 0
                (Nat.le_0_l 1)) as [key [_ E]]; [|eauto].
    exists k1. split.
    + apply own_keys_in; [now apply obj_has_In|].
      now apply valid_key_not_index, text_key_is_valid.
    + now apply text_key_is_valid.
  - split.
    + intros V W. unfold Portascrape.validateOptions.
      assert (K : own_keys options = map fst options).
      { apply own_keys_plain. intros k Hk.
        apply valid_key_not_index, V. now apply obj_has_In. }
      apply portascrape_two_text_conflict; auto; try (simpl; lia);
        rewrite K; intros k Hk; [apply V | apply W];
        now apply obj_has_In.
    + intros V W. unfold Part002.validateOptions.
      assert (K : own_keys options = map fst options).
      { apply own_keys_plain. intros k Hk.
        apply valid_key_not_index, V. now apply obj_has_In. }
      apply part002_two_text_conflict; auto; try (simpl; lia);
        rewrite K; [intros k Hk; apply V | intros Hk; apply W];
        now apply obj_has_In.
Qed.

(** C8 at [{exactText: "a", matches: /b/}] merged over the defaults. *)
Lemma C8_two_text_options_fail_witness :
  let options :=
    Portascrape.merge
      (Some [("exactText", VStr "a");
             ("matches", VRegExp "b" (fun s => JsString.includes s "b"))])
  in
  (exists e, Portascrape.validateOptions options = Throw e)
  /\ (exists e, Part002.validateOptions options = Throw e)
  /\ (exists e, Part003.validateOptions options = Throw e)
  /\ ((forall k, obj_has options k = true ->
                 array_includes Portascrape.validKeys k = true) ->
      (forall k, obj_has options k = true ->
                 array_includes Portascrape.textOptions k = true ->
                 is_string (obj_get options k)
                 || is_RegExp (obj_get options k) = true) ->
      Portascrape.validateOptions options = Throw Portascrape.only_one)
  /\ ((forall k, obj_has options k = true ->
                 array_includes Part002.validKeys k = true) ->
      (obj_has options "matches" = true ->
       is_RegExp (obj_get options "matches") = true) ->
      Part002.validateOptions options = Throw Part002.only_one).
Proof.
  apply (C8_two_text_options_fail _ "exactText" "matches");
    try reflexivity. discriminate.
Defined.

End ValidatorClaims.

(** ** The wait engine of src/unnamed/part_003 *)

Section Part003Engine.
Context {env : Type}.
Variable fn : predicate env.
Variable options : obj.

#[local] Abbreviation step := (Part003.step fn options).
#[local] Abbreviation run := (Part003.run fn options).
#[local] Abbreviation new_Promise := (Part003.new_Promise fn options).

Lemma run_app (t1 t2 : list (event env)) (s : wstate env) :
  run (t1 ++ t2) s = run t2 (run t1 s).
Proof. unfold Part003.run. apply fold_left_app. Qed.

Lemma run_cons (ev : event env) (t : list (event env)) (s : wstate env) :
  run (ev :: t) s = run t (step ev s).
Proof. reflexivity. Qed.

(** Without a poller no event calls the predicate, creates a handle or
    changes a settled promise. *)
Lemma no_poller_step (ev : event env) (s : wstate env) :
  no_poller s ->
  let s' := step ev s in
  no_poller s'
  /\ evaluations s' = evaluations s
  /\ timersCreated s' = timersCreated s
  /\ framesRequested s' = framesRequested s
  /\ observersCreated s' = observersCreated s
  /\ uncaught s' = uncaught s
  /\ (promise s <> Pending -> promise s' = promise s)
  /\ (timeoutTimer s = None ->
      promise s' = promise s /\ timeoutTimer s' = None).
Proof.
  intros [O P]. destruct s as [w p t o h n a b c u]. simpl in *. subst.
  unfold no_poller.
  destruct ev; simpl; try (repeat split; auto; fail).
  destruct t as [d|]; simpl; [|repeat split; auto].
  unfold Part003.on_timeout, reject. simpl.
  destruct p; simpl; repeat split; auto; try congruence; discriminate.
Qed.

Lemma no_poller_run (trace : list (event env)) :
  forall s, no_poller s ->
  let s' := run trace s in
  no_poller s'
  /\ evaluations s' = evaluations s
  /\ timersCreated s' = timersCreated s
  /\ framesRequested s' = framesRequested s
  /\ observersCreated s' = observersCreated s
  /\ uncaught s' = uncaught s
  /\ (promise s <> Pending -> promise s' = promise s)
  /\ (timeoutTimer s = None ->
      promise s' = promise s /\ timeoutTimer s' = None).
Proof.
  induction trace as [|ev rest IH]; intros s N.
  - simpl. repeat split; auto; apply N.
  - rewrite run_cons.
    destruct (no_poller_step ev s N) as (N1 & E1 & A1 & B1 & C1 & U1 & S1 & T1).
    destruct (IH (step ev s) N1) as (N2 & E2 & A2 & B2 & C2 & U2 & S2 & T2).
    cbv zeta in *.
    repeat split; try apply N2; try congruence.
    + intros NP. rewrite S2; auto. rewrite S1; auto.
    + destruct (T1 H) as [P1 Z1]. destruct (T2 Z1) as [P2 Z2]. congruence.
    + destruct (T1 H) as [P1 Z1]. destruct (T2 Z1) as [P2 Z2]. congruence.
Qed.

(** *** A predicate whose first answer is truthy *)

Lemma truthy_first_check (w w' : env) (v : value) :
  fn w = (Normal v, w') -> truthy v = true ->
  new_Promise w
  = mkWstate w' (Resolved v) None false None 1 0 0 0 [].
Proof.
  intros E T. unfold Part003.new_Promise, Part003.executor, call.
  simpl. rewrite E. now rewrite T.
Qed.

(** *** A predicate that throws inside the call of [wait] *)



(** *** A predicate that stays falsy *)

Hypothesis falsy : always_falsy fn.

Lemma falsy_poll (s : wstate env) :
  exists w',
    Part003.poll fn options s
    = (Normal tt,
       if is_number (obj_get options "polling")
       then setTimeout_poll (obj_get options "polling")
              (mkWstate w' (promise s) (timeoutTimer s) (observer s)
                 (pollHandle s) (S (evaluations s)) (timersCreated s)
                 (framesRequested s) (observersCreated s) (uncaught s))
       else requestAnimationFrame_poll
              (mkWstate w' (promise s) (timeoutTimer s) (observer s)
                 (pollHandle s) (S (evaluations s)) (timersCreated s)
                 (framesRequested s) (observersCreated s) (uncaught s))).
Proof.
  destruct (falsy (world s)) as (v & w' & E & T). exists w'.
  unfold Part003.poll, call. rewrite E, T.
  now destruct (is_number (obj_get options "polling")).
Qed.

Lemma falsy_on_mutation (s : wstate env) :
  exists w',
    Part003.on_mutation fn s
    = mkWstate w' (promise s) (timeoutTimer s) (observer s)
               (pollHandle s) (S (evaluations s)) (timersCreated s)
               (framesRequested s) (observersCreated s) (uncaught s).
Proof.
  destruct (falsy (world s)) as (v & w' & E & T). exists w'.
  unfold Part003.on_mutation, call. now rewrite E, T.
Qed.

(** The poller stays live through every event, the timeout included. *)
Lemma falsy_step_live (ev : event env) (s : wstate env) :
  poller_live options s -> poller_live options (step ev s).
Proof.
  unfold poller_live.
  destruct (is_mutation options) eqn:M; intros L; destruct ev; simpl; auto.
  - destruct (timeoutTimer s); auto.
    unfold Part003.on_timeout, reject. simpl. now destruct (promise s).
  - destruct (pollHandle s); auto.
    destruct (falsy_poll (take_poll s)) as [w' E]. rewrite E.
    now destruct (is_number (obj_get options "polling")).
  - rewrite L. destruct (falsy_on_mutation s) as [w' E]. now rewrite E.
  - destruct (timeoutTimer s); auto.
    unfold Part003.on_timeout, reject. simpl. now destruct (promise s).
  - destruct (pollHandle s); auto.
    destruct (falsy_poll (take_poll s)) as [w' E]. rewrite E.
    destruct (is_number (obj_get options "polling")); discriminate.
  - destruct (observer s); auto.
    destruct (falsy_on_mutation s) as [w' E]. now rewrite E.
Qed.

Lemma falsy_new_Promise (w : env) :
  let s := new_Promise w in
  promise s = Pending
  /\ poller_live options s
  /\ timeoutTimer s
     = (if truthy (obj_get options "timeout")
           && gt_zero (obj_get options "timeout")
        then Some (obj_get options "timeout") else None)
  /\ (is_number (obj_get options "polling") = false ->
      timersCreated s
      = if truthy (obj_get options "timeout")
           && gt_zero (obj_get options "timeout")
        then 1 else 0).
Proof.
  destruct (falsy w) as (v & w' & E & T).
  unfold Part003.new_Promise, Part003.executor, call, poller_live. simpl.
  rewrite E, T. fold (is_mutation options).
  destruct (is_mutation options) eqn:M.
  - destruct (truthy (obj_get options "timeout")
              && gt_zero (obj_get options "timeout")); simpl; auto.
  - match goal with
    | |- context [Part003.poll fn options ?s0] =>
        destruct (falsy_poll s0) as [w'' P]; rewrite P
    end.
    destruct (truthy (obj_get options "timeout")
              && gt_zero (obj_get options "timeout"));
      destruct (is_number (obj_get options "polling")); simpl;
      repeat split; auto; discriminate.
Qed.

Lemma falsy_run_live (trace : list (event env)) :
  forall s, poller_live options s -> poller_live options (run trace s).
Proof.
  induction trace as [|ev rest IH]; intros s L; auto.
  rewrite run_cons. apply IH. now apply falsy_step_live.
Qed.

(** Each firing of a live poller calls the predicate once more. *)
Lemma falsy_live_evaluates (s : wstate env) :
  poller_live options s ->
  evaluations
    (step (if is_mutation options then MutationNotified else PollFires) s)
  = S (evaluations s).
Proof.
  unfold poller_live. destruct (is_mutation options); intros L; simpl.
  - rewrite L. destruct (falsy_on_mutation s) as [w' E]. now rewrite E.
  - destruct (pollHandle s); [|congruence].
    destruct (falsy_poll (take_poll s)) as [w' E]. rewrite E.
    now destruct (is_number (obj_get options "polling")).
Qed.



End Part003Engine.

(** ** The wait engine of src/portascrape.js *)

Section PortascrapeEngine.
Context {env : Type}.
Variable fn : predicate env.
Variable options : obj.

#[local] Abbreviation pstep := (Portascrape.step fn options).
#[local] Abbreviation prun := (Portascrape.run fn options).

Lemma portascrape_run_cons (ev : event env) (t : list (event env))
      (s : wstate env) :
  prun (ev :: t) s = prun t (pstep ev s).
Proof. reflexivity. Qed.

Lemma portascrape_no_poller_step (ev : event env) (s : wstate env) :
  no_poller s ->
  let s' := pstep ev s in
  no_poller s'
  /\ evaluations s' = evaluations s
  /\ timersCreated s' = timersCreated s
  /\ framesRequested s' = framesRequested s
  /\ observersCreated s' = observersCreated s
  /\ (promise s <> Pending -> promise s' = promise s)
  /\ (timeoutTimer s = None ->
      promise s' = promise s /\ timeoutTimer s' = None).
Proof.
  intros [O P]. destruct s as [w p t o h n a b c u]. simpl in *. subst.
  unfold no_poller.
  destruct ev; simpl; try (repeat split; auto; fail).
  destruct t as [d|]; simpl; [|repeat split; auto].
  unfold Portascrape.on_timeout, reject. simpl.
  destruct p; simpl; repeat split; auto; try congruence; discriminate.
Qed.

Lemma portascrape_no_poller_run (trace : list (event env)) :
  forall s, no_poller s ->
  let s' := prun trace s in
  no_poller s'
  /\ evaluations s' = evaluations s
  /\ timersCreated s' = timersCreated s
  /\ framesRequested s' = framesRequested s
  /\ observersCreated s' = observersCreated s
  /\ (promise s <> Pending -> promise s' = promise s)
  /\ (timeoutTimer s = None ->
      promise s' = promise s /\ timeoutTimer s' = None).
Proof.
  induction trace as [|ev rest IH]; intros s N.
  - simpl. repeat split; auto; apply N.
  - rewrite portascrape_run_cons.
    destruct (portascrape_no_poller_step ev s N)
      as (N1 & E1 & A1 & B1 & C1 & S1 & T1).
    destruct (IH (pstep ev s) N1) as (N2 & E2 & A2 & B2 & C2 & S2 & T2).
    cbv zeta in *.
    repeat split; try apply N2; try congruence.
    + intros NP. rewrite S2; auto. rewrite S1; auto.
    + destruct (T1 H) as [P1 Z1]. destruct (T2 Z1) as [P2 Z2]. congruence.
    + destruct (T1 H) as [P1 Z1]. destruct (T2 Z1) as [P2 Z2]. congruence.
Qed.

Lemma portascrape_truthy_first_check (w w' : env) (v : value) :
  fn w = (Normal v, w') -> truthy v = true ->
  Portascrape.new_Promise fn options w
  = mkWstate w' (Resolved v) None false None 1 0 0 0 [].
Proof.
  intros E T. unfold Portascrape.new_Promise, Portascrape.executor, call.
  simpl. rewrite E. now rewrite T.
Qed.

(** Outside mutation mode a predicate that is falsy twice ends the call
    with the reference error of [poll]: no poll is ever scheduled. *)
Lemma portascrape_poll_reference_error (w w1 w2 : env) (v1 v2 : value) :
  strict_eq_string (obj_get options "polling") "mutation" = false ->
  fn w = (Normal v1, w1) -> truthy v1 = false ->
  fn w1 = (Normal v2, w2) -> truthy v2 = false ->
  let s := Portascrape.new_Promise fn options w in
  promise s = Rejected Portascrape.checkFunction_is_not_defined
  /\ pollHandle s = None /\ framesRequested s = 0
  /\ timeoutTimer s = Some (obj_get options "timeout").
Proof.
  intros M E1 T1 E2 T2.
  unfold Portascrape.new_Promise, Portascrape.executor, call. simpl.
  rewrite E1, T1, M. unfold Portascrape.poll, call. simpl.
  rewrite E2, T2.
  now destruct (is_number (obj_get options "polling")).
Qed.

End PortascrapeEngine.

(** ** Polling modes *)

Section PollingModes.
Context {env : Type}.
Variable fn : predicate env.

(** [poll] leaves the observer alone, and schedules by frame when
    [polling] is not a number. *)
Lemma poll_effects (options : obj) (s : wstate env) :
  let s' := snd (Part003.poll fn options s) in
  observer s' = observer s
  /\ (is_number (obj_get options "polling") = false ->
      (forall h, pollHandle s = Some h -> h = ByFrame) ->
      forall h, pollHandle s' = Some h -> h = ByFrame).
Proof.
  unfold Part003.poll, call. destruct (fn (world s)) as [[v|e] w'].
  - destruct (truthy v); simpl.
    + unfold resolve. simpl. destruct (promise s); simpl; auto.
    + destruct (is_number (obj_get options "polling")); simpl.
      * split; auto. discriminate.
      * split; auto. intros _ _ h [= <-]. reflexivity.
  - simpl. auto.
Qed.

Lemma on_mutation_effects (s : wstate env) :
  pollHandle (Part003.on_mutation fn s) = pollHandle s.
Proof.
  unfold Part003.on_mutation, call. destruct (fn (world s)) as [[v|e] w'].
  - destruct (truthy v); simpl; auto.
    unfold resolve. simpl. destruct (promise s); simpl; auto.
  - reflexivity.
Qed.

Lemma step_off_mutation (options : obj) (ev : event env)
      (s : wstate env) :
  observer s = false ->
  observer (Part003.step fn options ev s) = false.
Proof.
  intros O. destruct ev; simpl; auto.
  - destruct (timeoutTimer s); auto.
    unfold Part003.on_timeout, reject. simpl. now destruct (promise s).
  - destruct (pollHandle s); auto.
    pose proof (poll_effects options (take_poll s)) as [Po _].
    destruct (Part003.poll fn options (take_poll s)) as [[u|e] s1];
      simpl in *; congruence.
  - now rewrite O.
Qed.


Lemma new_Promise_off_mutation (options : obj) (w : env) :
  is_mutation options = false ->
  observer (Part003.new_Promise fn options w) = false.
Proof.
  unfold is_mutation, Part003.new_Promise, Part003.executor, call.
  intros M. simpl. destruct (fn w) as [[v|e] w']; [|reflexivity].
  destruct (truthy v); [reflexivity|]. rewrite M.
  match goal with
  | |- context [Part003.poll fn options ?s0] =>
      pose proof (poll_effects options s0) as [Po _];
      destruct (Part003.poll fn options s0) as [[u|e] s1]
  end; simpl in *.
  - rewrite Po. now destruct (_ && _).
  - unfold reject. destruct (promise s1); simpl; rewrite Po;
      now destruct (_ && _).
Qed.


Lemma run_off_mutation (options : obj) (trace : list (event env)) :
  forall s, observer s = false ->
  observer (Part003.run fn options trace s) = false.
Proof.
  induction trace as [|ev rest IH]; intros s O; auto.
  apply IH. now apply step_off_mutation.
Qed.


(** Two option objects that agree on [timeout] and whose [polling] is
    neither a number nor ["mutation"] drive the same call. *)
Section SameCall.
Variables o1 o2 : obj.
Hypothesis same_timeout : obj_get o1 "timeout" = obj_get o2 "timeout".
Hypothesis not_number1 : is_number (obj_get o1 "polling") = false.
Hypothesis not_number2 : is_number (obj_get o2 "polling") = false.
Hypothesis not_mutation1 : is_mutation o1 = false.
Hypothesis not_mutation2 : is_mutation o2 = false.








End SameCall.

End PollingModes.

(** ** The wait engine of src/unnamed/part_002 *)

Section Part002Engine.
Context {env : Type}.
Variable fn : predicate env.
Variable options : obj.

(** [v && v > 0] and [v > 0] arm the timeout for the same values. *)
Lemma guard_agrees (v : value) : truthy v && gt_zero v = gt_zero v.
Proof.
  destruct v as [| |b|n|s| |]; simpl; auto.
  - now destruct b.
  - unfold gt_zero. simpl. destruct n; simpl; auto.
  - destruct s; auto.
Qed.

(** The two snapshots make the same promise. *)
Lemma part002_new_Promise_agrees (w : env) :
  Part002.new_Promise fn options w = Part003.new_Promise fn options w.
Proof.
  unfold Part002.new_Promise, Part003.new_Promise, Part002.executor,
    Part003.executor.
  now rewrite guard_agrees.
Qed.

Lemma poll_keeps_unarmed (s : wstate env) :
  timeoutTimer s = None ->
  timeoutTimer (snd (Part003.poll fn options s)) = None.
Proof.
  intros Z. unfold Part003.poll, call.
  destruct (fn (world s)) as [[v|e] w']; simpl; auto.
  destruct (truthy v); simpl.
  - unfold resolve. simpl. now destruct (promise s).
  - now destruct (is_number (obj_get options "polling")).
Qed.

Lemma on_mutation_keeps_unarmed (s : wstate env) :
  timeoutTimer s = None -> timeoutTimer (Part003.on_mutation fn s) = None.
Proof.
  intros Z. unfold Part003.on_mutation, call.
  destruct (fn (world s)) as [[v|e] w']; simpl; auto.
  destruct (truthy v); simpl; auto.
  unfold resolve. simpl. now destruct (promise s).
Qed.



End Part002Engine.

(** ** The claims on the wait engine *)

Section EngineClaims.
Import Examples.

Lemma never_always_falsy : always_falsy never.
Proof. intros w. exists (VBool false), w. now split. Qed.

(** C1 (the code at the failing inputs).  In src/unnamed/part_003 the
    timeout callback only rejects.  While the predicate stays falsy the
    poller of the polling mode is live in every state the call reaches,
    the states after the timeout rejection included, and its next firing
    calls the predicate once more.  At [timeout: 1000] with frame
    polling, the state after the timeout has the promise rejected, a
    frame still requested, and the next frame makes the third call; in
    mutation mode the observer is still connected after the rejection and
    the next notification makes the second call.  The observer of
    src/portascrape.js outlives the rejection in the same way, and so
    does the frame loop of [wait(fn, {timeout: 1000})] in
    src/unnamed/part_002, whose validator lets the call through. *)
Theorem C1_timeout_leaves_the_poller_running :
  (forall (env : Type) (fn : predicate env) (options : obj) (w : env)
          (trace : list (event env)),
      always_falsy fn ->
      let s :=
        Part003.run fn options trace (Part003.new_Promise fn options w)
      in
      poller_live options s
      /\ evaluations
           (Part003.step fn options
              (if is_mutation options
               then MutationNotified else PollFires) s)
         = S (evaluations s))
  /\ (let options := Part003.merge (Some [("timeout", VNum 1000)]) in
      let s := Part003.run never options [TimeoutFires]
                 (Part003.new_Promise never options tt) in
      promise s = Rejected (Part003.timeout_error options)
      /\ timeoutTimer s = None
      /\ pollHandle s = Some ByFrame
      /\ evaluations s = 2
      /\ evaluations (Part003.step never options PollFires s) = 3
      /\ pollHandle (Part003.step never options PollFires s)
         = Some ByFrame)
  /\ (let options :=
        Part003.merge
          (Some [("timeout", VNum 1000); ("polling", VStr "mutation")])
      in
      let s := Part003.run never options [TimeoutFires]
                 (Part003.new_Promise never options tt) in
      promise s = Rejected (Part003.timeout_error options)
      /\ observer s = true
      /\ evaluations s = 1
      /\ evaluations (Part003.step never options MutationNotified s) = 2)
  /\ (let options :=
        Portascrape.merge
          (Some [("timeout", VNum 1000); ("polling", VStr "mutation")])
      in
      let s := Portascrape.run never options [TimeoutFires]
                 (Portascrape.new_Promise never options tt) in
      promise s
      = Rejected (JsThrown (VStr (Portascrape.timeout_message options)))
      /\ observer s = true
      /\ evaluations s = 1
      /\ evaluations (Portascrape.step never options MutationNotified s)
         = 2)
  /\ (let options := Part002.merge (Some [("timeout", VNum 1000)]) in
      exists s0,
        Part002.wait never (Some [("timeout", VNum 1000)]) tt = Normal s0
        /\ let s := Part002.step never options TimeoutFires s0 in
           promise s
           = Rejected (JsThrown (VStr (Part002.timeout_message options)))
           /\ pollHandle s = Some ByFrame
           /\ evaluations s = 2
           /\ evaluations (Part002.step never options PollFires s) = 3).
Proof.
  split; [| split; [| split; [| split]]];
    [| repeat split | repeat split | repeat split
     | eexists; split; [reflexivity | repeat split]].
  intros env fn options w trace F.
  assert (L : poller_live options
                (Part003.run fn options trace
                   (Part003.new_Promise fn options w))).
  { apply falsy_run_live; auto. now apply falsy_new_Promise. }
  split; auto. now apply falsy_live_evaluates.
Qed.



(** src/portascrape.js arms the timeout whatever its delay: with
    [timeout: 0] the timer is armed and its firing rejects. *)
Lemma portascrape_zero_timeout_rejects :
  let options :=
    Portascrape.merge
      (Some [("timeout", VNum 0); ("polling", VStr "mutation")]) in
  let s0 := Portascrape.new_Promise never options tt in
  timeoutTimer s0 = Some (VNum 0)
  /\ promise (Portascrape.step never options TimeoutFires s0)
     = Rejected (JsThrown (VStr (Portascrape.timeout_message options))).
Proof. split; reflexivity. Qed.

(** C5.  When the first call of the predicate returns a truthy value,
    the promise made by [wait] (src/unnamed/part_003) and by
    [waitForFunction] (src/portascrape.js) is resolved with that value,
    the predicate was called once, and neither [setTimeout] nor
    [requestAnimationFrame] was called nor an observer constructed; no
    later event changes any of this.  For src/portascrape.js and for
    src/unnamed/part_002 the whole call returns such a promise for every
    options value the validator accepts. *)
Theorem C5_truthy_first_check_resolves
        {env : Type} (fn : predicate env) (w w' : env) (v : value) :
  fn w = (Normal v, w') -> truthy v = true ->
  (forall (options : obj) (trace : list (event env)),
      let s :=
        Part003.run fn options trace (Part003.new_Promise fn options w)
      in
      promise s = Resolved v /\ evaluations s = 1
      /\ timersCreated s = 0 /\ framesRequested s = 0
      /\ observersCreated s = 0
      /\ timeoutTimer s = None /\ no_poller s)
  /\ (forall (options : obj) (trace : list (event env)),
      let s :=
        Portascrape.run fn options trace
          (Portascrape.new_Promise fn options w) in
      promise s = Resolved v /\ evaluations s = 1
      /\ timersCreated s = 0 /\ framesRequested s = 0
      /\ observersCreated s = 0
      /\ timeoutTimer s = None /\ no_poller s)
  /\ (forall (raw : option obj),
      Portascrape.validateOptions (Portascrape.merge raw) = Normal tt ->
      exists s,
        Portascrape.waitForFunction fn raw w = Normal s
        /\ promise s = Resolved v /\ evaluations s = 1
        /\ timersCreated s = 0 /\ framesRequested s = 0
        /\ observersCreated s = 0)
  /\ (forall (raw : option obj),
      Part002.validateOptions (Part002.merge raw) = Normal tt ->
      exists s,
        Part002.wait fn raw w = Normal s
        /\ promise s = Resolved v /\ evaluations s = 1
        /\ timersCreated s = 0 /\ framesRequested s = 0
        /\ observersCreated s = 0).
Proof.
  intros E T. split; [| split; [| split]].
  - intros options trace. rewrite (truthy_first_check fn options w w' v E T).
    match goal with
    | |- context [Part003.run fn options trace ?s0] =>
        destruct (no_poller_run fn options trace s0)
          as (N & Ev & A & B & C & U & S & Z); [now split|]
    end.
    cbv zeta in *. simpl in *. destruct (Z eq_refl) as [P Z'].
    repeat split; try apply N; congruence.
  - intros options trace.
    rewrite (portascrape_truthy_first_check fn options w w' v E T).
    match goal with
    | |- context [Portascrape.run fn options trace ?s0] =>
        destruct (portascrape_no_poller_run fn options trace s0)
          as (N & Ev & A & B & C & S & Z); [now split|]
    end.
    cbv zeta in *. simpl in *. destruct (Z eq_refl) as [P Z'].
    repeat split; try apply N; congruence.
  - intros raw V. unfold Portascrape.waitForFunction. rewrite V. simpl.
    rewrite (portascrape_truthy_first_check fn _ w w' v E T).
    eexists. split; [reflexivity|]. repeat split.
  - intros raw V. unfold Part002.wait. rewrite V. simpl.
    rewrite part002_new_Promise_agrees.
    rewrite (truthy_first_check fn _ w w' v E T).
    eexists. split; [reflexivity|]. repeat split.
Qed.

(** C5 at a predicate that returns the string ["ready"]. *)
Lemma C5_truthy_first_check_resolves_witness :
  (forall (options : obj) (trace : list (event unit)),
      let s :=
        Part003.run ready options trace
          (Part003.new_Promise ready options tt) in
      promise s = Resolved (VStr "ready") /\ evaluations s = 1
      /\ timersCreated s = 0 /\ framesRequested s = 0
      /\ observersCreated s = 0
      /\ timeoutTimer s = None /\ no_poller s)
  /\ (forall (options : obj) (trace : list (event unit)),
      let s :=
        Portascrape.run ready options trace
          (Portascrape.new_Promise ready options tt) in
      promise s = Resolved (VStr "ready") /\ evaluations s = 1
      /\ timersCreated s = 0 /\ framesRequested s = 0
      /\ observersCreated s = 0
      /\ timeoutTimer s = None /\ no_poller s)
  /\ (forall (raw : option obj),
      Portascrape.validateOptions (Portascrape.merge raw) = Normal tt ->
      exists s,
        Portascrape.waitForFunction ready raw tt = Normal s
        /\ promise s = Resolved (VStr "ready") /\ evaluations s = 1
        /\ timersCreated s = 0 /\ framesRequested s = 0
        /\ observersCreated s = 0)
  /\ (forall (raw : option obj),
      Part002.validateOptions (Part002.merge raw) = Normal tt ->
      exists s,
        Part002.wait ready raw tt = Normal s
        /\ promise s = Resolved (VStr "ready") /\ evaluations s = 1
        /\ timersCreated s = 0 /\ framesRequested s = 0
        /\ observersCreated s = 0).
Proof.
  apply (C5_truthy_first_check_resolves ready tt tt (VStr "ready"));
    reflexivity.
Defined.

End EngineClaims.

Section PredicateErrors.
Import Examples.




End PredicateErrors.

Section PollingClaims.
Import Examples.



End PollingClaims.

(** ** The element locator *)

Section Locator.
Import Examples.
Variable sel_matches : string -> node -> bool.

Lemma trim_empty : JsString.trim EmptyString = EmptyString.
Proof. reflexivity. Qed.

(** [search] with the exact-text function finds an element exactly when
    one of its child text nodes, trimmed, is the string asked for. *)
Lemma search_exact (options : obj) (s : string) (element : node) :
  obj_get options "exactText" = VStr s -> s <> EmptyString ->
  Part003.search element (Part003.exact_predicate options)
  = Normal (if has_text_child_equal s element
            then VNode element else VNull).
Proof.
  intros X Hs. unfold Part003.search, has_text_child_equal.
  induction (childNodes element) as [|child rest IH]; [reflexivity|].
  destruct child as [data|data|tag attrs children]; simpl; auto.
  unfold js_and. rewrite X. simpl.
  destruct (String.eqb data EmptyString) eqn:D; simpl.
  - apply String.eqb_eq in D. subst data. rewrite trim_empty.
    assert (E : String.eqb EmptyString s = false)
      by (apply String.eqb_neq; congruence).
    rewrite E. simpl. exact IH.
  - rewrite (String.eqb_sym s).
    destruct (String.eqb (JsString.trim data) s); simpl; auto.
Qed.

Lemma first_by_text_exact (options : obj) (s : string) :
  obj_get options "exactText" = VStr s -> s <> EmptyString ->
  truthy (obj_get options "containsText") = false ->
  truthy (obj_get options "matches") = false ->
  forall (elements : list node) (result : value),
    Part003.first_by_text options elements result
    = Normal (match find (has_text_child_equal s) elements with
              | Some element => VNode element
              | None => VNull
              end).
Proof.
  intros X Hs C M.
  assert (T : truthy (obj_get options "exactText") = true).
  { rewrite X. simpl. apply negb_true_iff, String.eqb_neq. exact Hs. }
  induction elements as [|element rest IH]; intros result;
    [reflexivity|].
  simpl. rewrite T, C, M. simpl.
  rewrite (search_exact options s element X Hs). simpl.
  destruct (has_text_child_equal s element); simpl; auto.
Qed.



End Locator.

Section LocatorExamples.
Import Examples.


(** On the example page the element found is the second heading: the
    first has the text in a child element only. *)
Example exact_text_on_example_page :
  Part003.dollar_predicate type_selector_matches "h1"
    (Some [("exactText", VStr "Example Domain")]) example_page
  = Normal (VNode (leaf "h1" " Example Domain ")).
Proof. reflexivity. Qed.

(** src/portascrape.js compares the whole text of the element, not
    trimmed: it finds the first heading. *)
Example portascrape_exact_text_is_aggregated :
  Portascrape.dollar_predicate type_selector_matches "h1"
    (Some [("exactText", VStr "Example Domain")]) example_page
  = Normal (VNode (Element "h1" [] [leaf "b" "Example Domain"])).
Proof. reflexivity. Qed.


End LocatorExamples.

(** ** The table helpers *)

Section Tables.
Import Examples.






End Tables.

(* ===================================================================== *)
(** * Further properties                                                  *)
(* ===================================================================== *)

(** ** Merging the options over the defaults *)

Section Merging.
Import Examples.

Lemma own_keys_only (o : obj) (key : string) :
  In key (own_keys o) -> In key (map fst o).
Proof.
  unfold own_keys. intros H. apply in_app_or in H as [H|H].
  - apply in_map_iff in H as [[n k] [E H]]. simpl in E. subst k.
    induction (map fst o) as [|k r IH]; [destruct H|].
    simpl in H. destruct (JsString.array_index k) eqn:A.
    + apply insert_index_in in H as [H|H].
      * injection H as _ <-. now left.
      * right. auto.
    + right. auto.
  - apply filter_In in H. tauto.
Qed.





End Merging.

(** ** What the validators accept *)

Section ValidatorsAccept.
Import Examples.

(** The text options among the enumerated keys are those among the keys
    as created: no text option is an array index. *)
Lemma text_keys_own_keys (o : obj) :
  text_keys (own_keys o) = text_keys (map fst o).
Proof.
  unfold text_keys, own_keys. rewrite filter_app, length_app.
  assert (A : forall keys,
             filter (array_includes Portascrape.textOptions)
               (map snd
                  (fold_right
                     (fun k acc =>
                        match JsString.array_index k with
                        | Some n => insert_index (n, k) acc
                        | None => acc
                        end) [] keys)) = []).
  { intros keys. destruct (filter _ _) as [|x r] eqn:F; auto.
    assert (Hx : In x (x :: r)) by now left.
    rewrite <- F in Hx. apply filter_In in Hx as [Hin T].
    apply in_map_iff in Hin as [[n k] [E Hin]]. simpl in E. subst k.
    exfalso. apply text_key_is_valid, valid_key_not_index in T.
    clear F. induction keys as [|k rest IH]; [destruct Hin|].
    simpl in Hin. destruct (JsString.array_index k) eqn:I; auto.
    apply insert_index_in in Hin as [Hin|Hin]; auto.
    injection Hin as _ <-. congruence. }
  rewrite A. simpl. f_equal.
  induction (map fst o) as [|k rest IH]; auto.
  simpl. destruct (JsString.array_index k) eqn:I; simpl.
  - destruct (array_includes Portascrape.textOptions k) eqn:T; auto.
    apply text_key_is_valid, valid_key_not_index in T. congruence.
  - destruct (array_includes Portascrape.textOptions k); simpl; congruence.
Qed.

Lemma filter_NoDup (f : string -> bool) (l : list string) :
  NoDup l -> NoDup (filter f l).
Proof.
  induction 1 as [|x l Hx Hl IH]; simpl; [constructor|].
  destruct (f x); auto. constructor; auto.
  intros Hin. apply filter_In in Hin. tauto.
Qed.

(** On an object without a repeated key, one matcher at most means one
    text option at most among the keys. *)
Lemma at_most_one_text_key (o : obj) :
  NoDup (map fst o) -> at_most_one_matcher o ->
  text_keys (own_keys o) <= 1.
Proof.
  intros ND One. rewrite text_keys_own_keys. unfold text_keys.
  pose proof (filter_NoDup (array_includes Portascrape.textOptions) _ ND)
    as NDf.
  destruct (filter _ (map fst o)) as [|a [|b r]] eqn:F; simpl; try lia.
  exfalso.
  assert (Ia : In a (a :: b :: r)) by now left.
  assert (Ib : In b (a :: b :: r)) by (right; now left).
  rewrite <- F in Ia, Ib.
  apply filter_In in Ia as [Ia Ta]. apply filter_In in Ib as [Ib Tb].
  assert (E : a = b)
    by (apply One; auto; now apply obj_has_In).
  subst b. inversion NDf as [|? ? Hn _]. apply Hn. now left.
Qed.

Lemma one_text_key_at_most (o : obj) :
  text_keys (own_keys o) <= 1 -> at_most_one_matcher o.
Proof.
  intros H k1 k2 P1 P2 T1 T2.
  destruct (string_dec k1 k2) as [|Hne]; auto.
  pose proof (present_text_keys o k1 k2 P1 P2 Hne T1 T2). lia.
Qed.

(** src/portascrape.js: what a normal return of the loop tells. *)
Lemma portascrape_pass_tells (options : obj) (keys : list string) :
  forall n, n <= 1 ->
  Portascrape.validate_keys options keys n = Normal tt ->
  n + text_keys keys <= 1
  /\ (forall k, In k keys ->
        array_includes Portascrape.validKeys k = true)
  /\ (forall k, In k keys ->
        array_includes Portascrape.textOptions k = true ->
        is_string (obj_get options k) || is_RegExp (obj_get options k)
        = true).
Proof.
  unfold text_keys.
  induction keys as [|key rest IH]; intros n Hn H; simpl in *.
  - repeat split; try lia; intros k [].
  - destruct (array_includes Portascrape.validKeys key) eqn:V;
      simpl in H; [|discriminate].
    destruct (array_includes Portascrape.textOptions key) eqn:T;
      simpl in *.
    + destruct (negb (is_string (obj_get options key))
                && negb (is_RegExp (obj_get options key))) eqn:G;
        simpl in H; [discriminate|].
      destruct n as [|n]; simpl in H; [|destruct n; discriminate].
      destruct (IH 1 (le_n 1) H) as (C & A & W).
      repeat split; try lia.
      * intros k [<-|Hk]; auto.
      * intros k [E|Hk] Tk; [subst k | now apply W].
        destruct (is_string (obj_get options key)),
                 (is_RegExp (obj_get options key)); auto; discriminate.
    + destruct n as [|[|n]]; simpl in H; try lia;
        destruct (IH _ Hn H) as (C & A & W);
        (repeat split; try lia;
         [intros k [<-|Hk]; auto
         | intros k [<-|Hk] Tk; auto; congruence]).
Qed.

(** X2.  src/portascrape.js, an options object without a repeated key:
    [validateOptions] returns normally exactly when every key is one of
    the five recognized keys, at most one of [exactText], [containsText],
    [matches] is present, and each of these that is present holds a string
    or a regular expression. *)
Theorem X2_portascrape_validator_accepts (options : obj) :
  NoDup (map fst options) ->
  (Portascrape.validateOptions options = Normal tt
   <-> all_recognized options
       /\ at_most_one_matcher options
       /\ (forall k, obj_has options k = true ->
             array_includes Portascrape.textOptions k = true ->
             is_string (obj_get options k) || is_RegExp (obj_get options k)
             = true)).
Proof.
  intros ND. unfold Portascrape.validateOptions. split.
  - intros H.
    destruct (portascrape_pass_tells options _ 0 (Nat.le_0_l 1) H)
      as (C & A & W).
    split; [| split].
    + intros k Hk. now apply A, own_keys_in_all, obj_has_In.
    + apply one_text_key_at_most. exact C.
    + intros k Hk Tk. apply W; auto. now apply own_keys_in_all, obj_has_In.
  - intros (A & One & W).
    apply portascrape_recognized_pass.
    + simpl. now apply at_most_one_text_key.
    + intros k Hk. now apply A, obj_has_In, own_keys_only.
    + intros k Hk Tk. apply W; auto. now apply obj_has_In, own_keys_only.
Qed.

(** X2 at [{timeout: 500, containsText: "Example"}] merged over the
    defaults. *)
Lemma X2_portascrape_validator_accepts_witness :
  let options :=
    Portascrape.merge
      (Some [("timeout", VNum 500); ("containsText", VStr "Example")]) in
  Portascrape.validateOptions options = Normal tt
  <-> all_recognized options
      /\ at_most_one_matcher options
      /\ (forall k, obj_has options k = true ->
            array_includes Portascrape.textOptions k = true ->
            is_string (obj_get options k) || is_RegExp (obj_get options k)
            = true).
Proof.
  apply (X2_portascrape_validator_accepts
           (Portascrape.merge
              (Some [("timeout", VNum 500);
                     ("containsText", VStr "Example")]))).
  simpl. repeat constructor; simpl; intuition discriminate.
Defined.

End ValidatorsAccept.

Section Part002Accepts.
Import Examples.

(** On a text option the checks of src/unnamed/part_002 come down to the
    one on [matches]. *)
Lemma part002_check_text_option (options : obj) (key : string) :
  array_includes Portascrape.textOptions key = true ->
  Part002.check_text_option options key
  = if String.eqb key "matches"
       && negb (is_RegExp (obj_get options key))
    then Throw (Part002.must_be_a_RegExp key)
    else Normal tt.
Proof.
  intros T. unfold Part002.check_text_option.
  now rewrite (text_key_lacks_text key T).
Qed.

Lemma part002_recognized_pass (options : obj) (keys : list string) :
  forall n, n + text_keys keys <= 1 ->
  (forall k, In k keys -> array_includes Part002.validKeys k = true) ->
  (In "matches" keys -> is_RegExp (obj_get options "matches") = true) ->
  Part002.validate_keys options keys n = Normal tt.
Proof.
  unfold text_keys.
  induction keys as [|key rest IH]; intros n H V W; simpl in *; auto.
  rewrite (V key (or_introl eq_refl)). simpl.
  change Part002.textOptions with Portascrape.textOptions.
  destruct (array_includes Portascrape.textOptions key) eqn:T;
    simpl in *.
  - rewrite (part002_check_text_option options key T).
    assert (G : String.eqb key "matches"
                && negb (is_RegExp (obj_get options key)) = false).
    { destruct (String.eqb key "matches") eqn:E; auto.
      apply String.eqb_eq in E. subst key.
      now rewrite (W (or_introl eq_refl)). }
    rewrite G. simpl.
    destruct n as [|n]; simpl; try lia. apply IH; auto; lia.
  - destruct n as [|[|n]]; simpl; try lia; apply IH; auto; lia.
Qed.

Lemma part002_pass_tells (options : obj) (keys : list string) :
  forall n, n <= 1 ->
  Part002.validate_keys options keys n = Normal tt ->
  n + text_keys keys <= 1
  /\ (forall k, In k keys -> array_includes Part002.validKeys k = true)
  /\ (In "matches" keys -> is_RegExp (obj_get options "matches") = true).
Proof.
  unfold text_keys.
  induction keys as [|key rest IH]; intros n Hn H; simpl in *.
  - repeat split; try lia; intros; contradiction.
  - destruct (array_includes Part002.validKeys key) eqn:V;
      simpl in H; [|discriminate].
    change Part002.textOptions with Portascrape.textOptions in H.
    destruct (array_includes Portascrape.textOptions key) eqn:T;
      simpl in *.
    + rewrite (part002_check_text_option options key T) in H.
      destruct (String.eqb key "matches"
                && negb (is_RegExp (obj_get options key))) eqn:G;
        simpl in H; [discriminate|].
      destruct n as [|n]; simpl in H; [|destruct n; discriminate].
      destruct (IH 1 (le_n 1) H) as (C & A & W).
      repeat split; try lia.
      * intros k [<-|Hk]; auto.
      * intros [E|Hk]; auto. subst key. simpl in G.
        now destruct (is_RegExp (obj_get options "matches")).
    + destruct n as [|[|n]]; simpl in H; try lia;
        destruct (IH _ Hn H) as (C & A & W);
        (repeat split; try lia;
         [intros k [<-|Hk]; auto
         | intros [E|Hk]; auto; subst key; discriminate]).
Qed.

(** X3.  src/unnamed/part_002, an options object without a repeated key:
    [validateOptions] returns normally exactly when every key is one of
    the five recognized keys, at most one of [exactText], [containsText],
    [matches] is present, and [matches], when present, holds a regular
    expression.  What [exactText] and [containsText] hold plays no part. *)
Theorem X3_part002_validator_accepts (options : obj) :
  NoDup (map fst options) ->
  (Part002.validateOptions options = Normal tt
   <-> all_recognized options
       /\ at_most_one_matcher options
       /\ (obj_has options "matches" = true ->
           is_RegExp (obj_get options "matches") = true)).
Proof.
  intros ND. unfold Part002.validateOptions. split.
  - intros H.
    destruct (part002_pass_tells options _ 0 (Nat.le_0_l 1) H)
      as (C & A & W).
    split; [| split].
    + intros k Hk. now apply A, own_keys_in_all, obj_has_In.
    + apply one_text_key_at_most. exact C.
    + intros Hk. now apply W, own_keys_in_all, obj_has_In.
  - intros (A & One & W).
    apply part002_recognized_pass.
    + simpl. now apply at_most_one_text_key.
    + intros k Hk. now apply A, obj_has_In, own_keys_only.
    + intros Hk. now apply W, obj_has_In, own_keys_only.
Qed.

(** X3 at [{exactText: 42}] merged over the defaults. *)
Lemma X3_part002_validator_accepts_witness :
  let options := Part002.merge (Some [("exactText", VNum 42)]) in
  Part002.validateOptions options = Normal tt
  <-> all_recognized options
      /\ at_most_one_matcher options
      /\ (obj_has options "matches" = true ->
          is_RegExp (obj_get options "matches") = true).
Proof.
  apply (X3_part002_validator_accepts
           (Part002.merge (Some [("exactText", VNum 42)]))).
  simpl. repeat constructor; simpl; intuition discriminate.
Defined.

End Part002Accepts.

(** ** The wait engine of src/unnamed/part_003, further *)

Section EngineFurther.
Context {env : Type}.
Variable fn : predicate env.
Variable options : obj.

#[local] Abbreviation xstep := (Part003.step fn options).
#[local] Abbreviation xrun := (Part003.run fn options).
#[local] Abbreviation xnew := (Part003.new_Promise fn options).

(** A settled promise stays as it is through every callback. *)
Lemma step_settled (ev : event env) (s : wstate env) :
  promise s <> Pending -> promise (xstep ev s) = promise s.
Proof.
  intros NP. destruct ev; simpl; auto.
  - destruct (timeoutTimer s); auto.
    unfold Part003.on_timeout, reject. simpl.
    destruct (promise s) eqn:P; auto; congruence.
  - destruct (pollHandle s); auto.
    unfold Part003.poll, call. simpl.
    destruct (fn (world s)) as [[v|e] w']; simpl; auto.
    destruct (truthy v); simpl.
    + unfold resolve. simpl. destruct (promise s) eqn:P; auto; congruence.
    + now destruct (is_number (obj_get options "polling")).
  - destruct (observer s); auto.
    unfold Part003.on_mutation, call.
    destruct (fn (world s)) as [[v|e] w']; simpl; auto.
    destruct (truthy v); simpl; auto.
    unfold resolve. simpl. destruct (promise s) eqn:P; auto; congruence.
Qed.

Lemma run_settled (trace : list (event env)) :
  forall s, promise s <> Pending -> promise (xrun trace s) = promise s.
Proof.
  induction trace as [|ev rest IH]; intros s NP; auto.
  simpl. rewrite IH; rewrite step_settled; auto.
Qed.

Lemma on_mutation_frames (s : wstate env) :
  framesRequested (Part003.on_mutation fn s) = framesRequested s.
Proof.
  unfold Part003.on_mutation, call. destruct (fn (world s)) as [[v|e] w'].
  - destruct (truthy v); simpl; auto.
    unfold resolve. simpl. destruct (promise s); simpl; auto.
  - reflexivity.
Qed.

(** While no poll is scheduled, no callback schedules one or requests a
    frame. *)
Lemma step_keeps_no_poll (ev : event env) (s : wstate env) :
  pollHandle s = None ->
  pollHandle (xstep ev s) = None
  /\ framesRequested (xstep ev s) = framesRequested s.
Proof.
  intros Z. destruct ev; simpl; auto.
  - destruct (timeoutTimer s); auto.
    unfold Part003.on_timeout, reject. simpl. now destruct (promise s).
  - now rewrite Z.
  - destruct (observer s); auto.
    now rewrite on_mutation_effects, on_mutation_frames.
Qed.

Lemma run_keeps_no_poll (trace : list (event env)) :
  forall s, pollHandle s = None ->
  pollHandle (xrun trace s) = None
  /\ framesRequested (xrun trace s) = framesRequested s.
Proof.
  induction trace as [|ev rest IH]; intros s Z; auto.
  simpl. destruct (step_keeps_no_poll ev s Z) as [Z1 F1].
  destruct (IH _ Z1) as [Z2 F2]. split; congruence.
Qed.

Lemma new_Promise_mutation_no_poll (w : env) :
  is_mutation options = true ->
  pollHandle (xnew w) = None /\ framesRequested (xnew w) = 0.
Proof.
  unfold is_mutation, Part003.new_Promise, Part003.executor, call.
  intros M. simpl. destruct (fn w) as [[v|e] w']; [|now split].
  destruct (truthy v); [now split|]. rewrite M.
  now destruct (_ && _).
Qed.

(** X4.  src/unnamed/part_003, frame or interval polling: when a
    scheduled poll finds the predicate truthy, the promise is resolved
    with that value if it was pending and is left as it was otherwise
    (after a timeout rejection), the timeout is cleared and no further
    poll is scheduled; from then on no event calls the predicate, creates
    a timer or requests a frame, and the promise does not change. *)
Theorem X4_truthy_poll_settles
        (w w' : env) (v : value) (before after : list (event env)) :
  is_mutation options = false ->
  let s := xrun before (xnew w) in
  pollHandle s <> None ->
  fn (world s) = (Normal v, w') -> truthy v = true ->
  let s1 := xstep PollFires s in
  let s2 := xrun after s1 in
  promise s1 = settle_with v (promise s)
  /\ timeoutTimer s1 = None
  /\ no_poller s1
  /\ evaluations s1 = S (evaluations s)
  /\ promise s2 = promise s1
  /\ evaluations s2 = evaluations s1
  /\ timersCreated s2 = timersCreated s1
  /\ framesRequested s2 = framesRequested s1.
Proof.
  intros M s H E T.
  assert (O : observer s = false).
  { apply run_off_mutation. now apply new_Promise_off_mutation. }
  assert (S1 : xstep PollFires s
               = resolve v
                   (mkWstate w' (promise s) None false None
                      (S (evaluations s)) (timersCreated s)
                      (framesRequested s) (observersCreated s)
                      (uncaught s))).
  { simpl. destruct (pollHandle s); [|congruence].
    unfold Part003.poll, call. simpl. rewrite E, T, O. reflexivity. }
  cbv zeta. rewrite S1.
  assert (P1 : promise
                 (resolve v
                    (mkWstate w' (promise s) None false None
                       (S (evaluations s)) (timersCreated s)
                       (framesRequested s) (observersCreated s)
                       (uncaught s)))
               = settle_with v (promise s))
    by (unfold resolve; simpl; now destruct (promise s)).
  assert (N : no_poller
                (resolve v
                   (mkWstate w' (promise s) None false None
                      (S (evaluations s)) (timersCreated s)
                      (framesRequested s) (observersCreated s)
                      (uncaught s))))
    by (unfold resolve, no_poller; simpl; now destruct (promise s)).
  destruct (no_poller_run fn options after _ N)
    as (_ & Ev & A & B & _ & _ & St & _).
  repeat split; auto; try apply N;
    try (unfold resolve; simpl; now destruct (promise s)).
  apply St. rewrite P1. unfold settle_with.
  destruct (promise s); discriminate.
Qed.

(** X5.  src/unnamed/part_003, mutation mode: when a notification finds
    the predicate truthy, the promise is resolved with that value if it
    was pending and is left as it was otherwise, the observer is
    disconnected and the timeout cleared; from then on no event calls the
    predicate and the promise does not change. *)
Theorem X5_truthy_notification_settles
        (w w' : env) (v : value) (before after : list (event env)) :
  is_mutation options = true ->
  let s := xrun before (xnew w) in
  observer s = true ->
  fn (world s) = (Normal v, w') -> truthy v = true ->
  let s1 := xstep MutationNotified s in
  let s2 := xrun after s1 in
  promise s1 = settle_with v (promise s)
  /\ timeoutTimer s1 = None
  /\ no_poller s1
  /\ evaluations s1 = S (evaluations s)
  /\ promise s2 = promise s1
  /\ evaluations s2 = evaluations s1
  /\ framesRequested s2 = 0.
Proof.
  intros M s O E T.
  destruct (new_Promise_mutation_no_poll w M) as [Z0 F00].
  destruct (run_keeps_no_poll before _ Z0) as [Z F0].
  fold s in Z, F0. rewrite F00 in F0.
  assert (S1 : xstep MutationNotified s
               = resolve v
                   (mkWstate w' (promise s) None false None
                      (S (evaluations s)) (timersCreated s)
                      (framesRequested s) (observersCreated s)
                      (uncaught s))).
  { simpl. rewrite O. unfold Part003.on_mutation, call.
    rewrite E, T. simpl. now rewrite Z. }
  cbv zeta. rewrite S1.
  assert (P1 : promise
                 (resolve v
                    (mkWstate w' (promise s) None false None
                       (S (evaluations s)) (timersCreated s)
                       (framesRequested s) (observersCreated s)
                       (uncaught s)))
               = settle_with v (promise s))
    by (unfold resolve; simpl; now destruct (promise s)).
  assert (N : no_poller
                (resolve v
                   (mkWstate w' (promise s) None false None
                      (S (evaluations s)) (timersCreated s)
                      (framesRequested s) (observersCreated s)
                      (uncaught s))))
    by (unfold resolve, no_poller; simpl; now destruct (promise s)).
  destruct (no_poller_run fn options after _ N)
    as (_ & Ev & A & B & _ & _ & St & _).
  repeat split; auto; try apply N;
    try (unfold resolve; simpl; now destruct (promise s)).
  - apply St. rewrite P1. unfold settle_with.
    destruct (promise s); discriminate.
  - rewrite B. unfold resolve. simpl. now destruct (promise s).
Qed.

End EngineFurther.

Section EngineCounts.
Context {env : Type}.
Variable fn : predicate env.
Variable options : obj.
Hypothesis falsy : always_falsy fn.

#[local] Abbreviation cstep := (Part003.step fn options).
#[local] Abbreviation crun := (Part003.run fn options).
#[local] Abbreviation cnew := (Part003.new_Promise fn options).

(** With the predicate falsy, an event other than the timeout leaves the
    promise and the armed timeout as they are. *)
Lemma falsy_step_keeps_timeout (ev : event env) (s : wstate env) :
  is_timeout ev = false ->
  promise (cstep ev s) = promise s
  /\ timeoutTimer (cstep ev s) = timeoutTimer s.
Proof.
  intros NT. destruct ev; simpl in *; try discriminate; auto.
  - destruct (pollHandle s); auto.
    destruct (falsy_poll fn options falsy (take_poll s)) as [w' E].
    rewrite E. now destruct (is_number (obj_get options "polling")).
  - destruct (observer s); auto.
    destruct (falsy_on_mutation fn falsy s) as [w' E]. now rewrite E.
Qed.

Lemma falsy_run_without_timeout (trace : list (event env)) :
  forall s, existsb is_timeout trace = false ->
  promise (crun trace s) = promise s
  /\ timeoutTimer (crun trace s) = timeoutTimer s.
Proof.
  induction trace as [|ev rest IH]; intros s H; auto.
  simpl in H. apply orb_false_iff in H as [H1 H2].
  simpl. destruct (falsy_step_keeps_timeout ev s H1) as [P T].
  destruct (IH (cstep ev s) H2) as [P' T']. split; congruence.
Qed.

(** No callback arms the timeout. *)
Lemma run_keeps_unarmed (trace : list (event env)) :
  forall s, timeoutTimer s = None -> timeoutTimer (crun trace s) = None.
Proof.
  induction trace as [|ev rest IH]; intros s N; auto.
  simpl. apply IH. destruct ev; simpl; auto.
  - now rewrite N.
  - destruct (pollHandle s); auto.
    pose proof (poll_keeps_unarmed fn options (take_poll s) N) as K.
    destruct (Part003.poll fn options (take_poll s)) as [[u|e] s1]; auto.
  - destruct (observer s); auto.
    now apply on_mutation_keeps_unarmed.
Qed.

Lemma falsy_run_with_timeout (trace : list (event env)) :
  forall s (delay : value),
    promise s = Pending -> timeoutTimer s = Some delay ->
    existsb is_timeout trace = true ->
    promise (crun trace s) = Rejected (Part003.timeout_error options)
    /\ timeoutTimer (crun trace s) = None.
Proof.
  induction trace as [|ev rest IH]; intros s delay P T H;
    [discriminate|].
  simpl in H. destruct (is_timeout ev) eqn:K.
  - destruct ev; try discriminate. simpl. rewrite T.
    assert (R : promise (Part003.on_timeout options (take_timeout s))
                = Rejected (Part003.timeout_error options))
      by (unfold Part003.on_timeout, reject; simpl; now rewrite P).
    split.
    + rewrite run_settled; auto. rewrite R. discriminate.
    + apply run_keeps_unarmed.
      unfold Part003.on_timeout, reject. simpl. now rewrite P.
  - simpl in H. destruct (falsy_step_keeps_timeout ev s K) as [P' T'].
    simpl. apply (IH (cstep ev s) delay); congruence.
Qed.

(** X6.  src/unnamed/part_003, a predicate that stays falsy and a
    [timeout] that passes the guard [timeout && timeout > 0]: as long as
    the timeout timer has not fired the promise is pending and the timer
    armed with that delay; once it has fired the promise is rejected with
    the error whose message is "timeout of " + timeout + "ms exceeded
    waiting for function to return true", whatever happens before and
    after. *)
Theorem X6_timeout_rejects
        (w : env) (trace : list (event env)) :
  arms_timeout options = true ->
  let s := crun trace (cnew w) in
  (if existsb is_timeout trace
   then promise s = Rejected (Part003.timeout_error options)
        /\ timeoutTimer s = None
   else promise s = Pending
        /\ timeoutTimer s = Some (obj_get options "timeout"))
  /\ (forall n, obj_get options "timeout" = VNum n ->
        Part003.timeout_error options
        = JsError ("timeout of " ++ JsString.of_Z n
                   ++ "ms exceeded waiting for function to return true")).
Proof.
  intros A s. unfold arms_timeout in A.
  destruct (falsy_new_Promise fn options falsy w) as (P & _ & T & _).
  rewrite A in T.
  split.
  - destruct (existsb is_timeout trace) eqn:K.
    + now apply (falsy_run_with_timeout trace _ _ P T).
    + destruct (falsy_run_without_timeout trace (cnew w) K) as [P' T'].
      unfold s. split; congruence.
  - intros n E. unfold Part003.timeout_error. now rewrite E.
Qed.

(** In mutation mode only a notification calls the predicate. *)
Lemma falsy_observing_run (trace : list (event env)) :
  forall s, observer s = true -> pollHandle s = None ->
  let s' := crun trace s in
  evaluations s' = evaluations s + count_events is_notification trace
  /\ framesRequested s' = framesRequested s
  /\ timersCreated s' = timersCreated s
  /\ observersCreated s' = observersCreated s
  /\ observer s' = true /\ pollHandle s' = None.
Proof.
  unfold count_events.
  induction trace as [|ev rest IH]; intros s O Z.
  - simpl. rewrite Nat.add_0_r. repeat split; auto.
  - simpl crun.
    assert (G : observer (cstep ev s) = true
                /\ pollHandle (cstep ev s) = None
                /\ evaluations (cstep ev s)
                   = evaluations s + (if is_notification ev then 1 else 0)
                /\ framesRequested (cstep ev s) = framesRequested s
                /\ timersCreated (cstep ev s) = timersCreated s
                /\ observersCreated (cstep ev s) = observersCreated s).
    { destruct ev; simpl; rewrite ?Nat.add_0_r, ?Nat.add_1_r.
      - destruct (timeoutTimer s); auto 10.
        unfold Part003.on_timeout, reject. simpl.
        destruct (promise s); simpl; auto 10.
      - rewrite Z. auto 10.
      - rewrite O. destruct (falsy_on_mutation fn falsy s) as [w' E].
        rewrite E. simpl. auto 10.
      - auto 10. }
    destruct G as (O1 & Z1 & E1 & F1 & T1 & C1).
    destruct (IH _ O1 Z1) as (E2 & F2 & T2 & C2 & O2 & Z2).
    cbv zeta in *. simpl filter.
    repeat split; try congruence.
    rewrite E2, E1. destruct (is_notification ev); simpl; lia.
Qed.

(** X7.  src/unnamed/part_003, mutation mode and a predicate that stays
    falsy: the predicate is called once by the call and once for each
    notification and by nothing else; no animation frame is ever
    requested and no poll scheduled, one observer is constructed and
    stays connected, and [setTimeout] is called once if the timeout is
    armed and not at all otherwise. *)
Theorem X7_mutation_mode_has_no_polling_loop
        (w : env) (trace : list (event env)) :
  is_mutation options = true ->
  let s := crun trace (cnew w) in
  evaluations s = 1 + count_events is_notification trace
  /\ framesRequested s = 0
  /\ pollHandle s = None
  /\ observersCreated s = 1
  /\ observer s = true
  /\ timersCreated s = (if arms_timeout options then 1 else 0).
Proof.
  intros M s.
  destruct (falsy w) as (v & w' & E & T).
  assert (N : cnew w
              = observe
                  (if arms_timeout options
                   then arm_timeout (obj_get options "timeout")
                          (mkWstate w' Pending None false None 1 0 0 0 [])
                   else mkWstate w' Pending None false None 1 0 0 0 [])).
  { unfold Part003.new_Promise, Part003.executor, call, arms_timeout.
    simpl. rewrite E, T. unfold is_mutation in M. rewrite M.
    reflexivity. }
  destruct (falsy_observing_run trace (cnew w))
    as (E2 & F2 & T2 & C2 & O2 & Z2);
    [rewrite N; reflexivity
    | rewrite N; now destruct (arms_timeout options) |].
  assert (I : evaluations (cnew w) = 1 /\ framesRequested (cnew w) = 0
              /\ observersCreated (cnew w) = 1
              /\ timersCreated (cnew w)
                 = (if arms_timeout options then 1 else 0))
    by (rewrite N; destruct (arms_timeout options); repeat split).
  destruct I as (I1 & I2 & I3 & I4).
  cbv zeta in *. unfold s. repeat split; congruence.
Qed.

(** Outside mutation mode only a scheduled poll calls the predicate, and
    each such call schedules the next. *)
Lemma falsy_polling_run (trace : list (event env)) :
  forall s, observer s = false ->
  pollHandle s = Some (mode_handle options) ->
  let s' := crun trace s in
  let polls := count_events is_poll trace in
  evaluations s' = evaluations s + polls
  /\ framesRequested s'
     = framesRequested s
       + (if is_number (obj_get options "polling") then 0 else polls)
  /\ timersCreated s'
     = timersCreated s
       + (if is_number (obj_get options "polling") then polls else 0)
  /\ observersCreated s' = observersCreated s
  /\ observer s' = false
  /\ pollHandle s' = Some (mode_handle options).
Proof.
  unfold count_events.
  induction trace as [|ev rest IH]; intros s O Z.
  - simpl. rewrite !Nat.add_0_r.
    destruct (is_number (obj_get options "polling")); auto 10.
  - simpl crun.
    assert (G : observer (cstep ev s) = false
                /\ pollHandle (cstep ev s) = Some (mode_handle options)
                /\ evaluations (cstep ev s)
                   = evaluations s + (if is_poll ev then 1 else 0)
                /\ framesRequested (cstep ev s)
                   = framesRequested s
                     + (if is_number (obj_get options "polling") then 0
                        else if is_poll ev then 1 else 0)
                /\ timersCreated (cstep ev s)
                   = timersCreated s
                     + (if is_number (obj_get options "polling")
                        then if is_poll ev then 1 else 0 else 0)
                /\ observersCreated (cstep ev s) = observersCreated s).
    { destruct ev; simpl; rewrite ?Nat.add_0_r, ?Nat.add_1_r.
      - destruct (timeoutTimer s).
        + unfold Part003.on_timeout, reject. simpl.
          destruct (promise s); simpl;
            destruct (is_number (obj_get options "polling"));
            rewrite ?Nat.add_0_r; auto 10.
        + destruct (is_number (obj_get options "polling"));
            rewrite ?Nat.add_0_r; auto 10.
      - rewrite Z.
        destruct (falsy_poll fn options falsy (take_poll s)) as [w' E].
        rewrite E. unfold mode_handle.
        destruct (is_number (obj_get options "polling")); simpl;
          rewrite ?Nat.add_0_r, ?Nat.add_1_r; auto 10.
      - rewrite O.
        destruct (is_number (obj_get options "polling"));
          rewrite ?Nat.add_0_r; auto 10.
      - destruct (is_number (obj_get options "polling"));
          rewrite ?Nat.add_0_r; auto 10. }
    destruct G as (O1 & Z1 & E1 & F1 & T1 & C1).
    destruct (IH _ O1 Z1) as (E2 & F2 & T2 & C2 & O2 & Z2).
    cbv zeta in *. simpl filter.
    repeat split; try congruence.
    + rewrite E2, E1. destruct (is_poll ev); simpl; lia.
    + rewrite F2, F1.
      destruct (is_number (obj_get options "polling")),
               (is_poll ev); simpl; lia.
    + rewrite T2, T1.
      destruct (is_number (obj_get options "polling")),
               (is_poll ev); simpl; lia.
Qed.

(** X8.  src/unnamed/part_003, frame or interval polling and a predicate
    that stays falsy: the predicate is called twice by the call (the
    first check and the first poll) and once for each poll that fires.
    When [polling] is a number every poll is scheduled by [setTimeout]
    with that number as the delay and no frame is ever requested; when
    it is not, every poll is an animation frame and [setTimeout] is
    called for the timeout only.  One poll is scheduled for each call
    of the predicate but the first, and no observer is constructed. *)
Theorem X8_polling_counts
        (w : env) (trace : list (event env)) :
  is_mutation options = false ->
  let s := crun trace (cnew w) in
  let polls := count_events is_poll trace in
  let armed := if arms_timeout options then 1 else 0 in
  evaluations s = 2 + polls
  /\ pollHandle s = Some (mode_handle options)
  /\ observersCreated s = 0
  /\ (if is_number (obj_get options "polling")
      then framesRequested s = 0 /\ timersCreated s = armed + 1 + polls
      else framesRequested s = 1 + polls /\ timersCreated s = armed).
Proof.
  intros M s polls armed.
  destruct (falsy w) as (v & w' & E & T).
  destruct (falsy w') as (v2 & w2 & E2 & T2).
  assert (N : exists s0,
             cnew w = s0
             /\ observer s0 = false
             /\ pollHandle s0 = Some (mode_handle options)
             /\ evaluations s0 = 2
             /\ observersCreated s0 = 0
             /\ framesRequested s0
                = (if is_number (obj_get options "polling") then 0 else 1)
             /\ timersCreated s0
                = armed
                  + (if is_number (obj_get options "polling")
                     then 1 else 0)).
  { eexists. split; [reflexivity|].
    unfold Part003.new_Promise, Part003.executor, call, armed,
      arms_timeout, mode_handle.
    simpl. rewrite E, T. unfold is_mutation in M. rewrite M.
    unfold Part003.poll, call.
    destruct (truthy (obj_get options "timeout")
              && gt_zero (obj_get options "timeout")); simpl;
      rewrite E2, T2;
      destruct (is_number (obj_get options "polling")); simpl; auto 10. }
  destruct N as (s0 & N & O & Z & Ev & Ob & Fr & Ti).
  destruct (falsy_polling_run trace s0 O Z)
    as (E3 & F3 & T3 & C3 & O3 & Z3).
  cbv zeta in *. unfold s. rewrite N.
  repeat split; try congruence; try lia.
  fold polls in F3, T3.
  destruct (is_number (obj_get options "polling")); split; lia.
Qed.

End EngineCounts.

Section EngineScenarios.
Import Examples Scenarios.

(** X4 at a predicate that turns truthy at its fourth call, with the
    default options: the second animation frame finds it truthy. *)
Lemma X4_truthy_poll_settles_witness :
  let s := Part003.run (ready_after 3) (Part003.merge None) [PollFires]
             (Part003.new_Promise (ready_after 3) (Part003.merge None) 0) in
  let s1 := Part003.step (ready_after 3) (Part003.merge None) PollFires s in
  let s2 := Part003.run (ready_after 3) (Part003.merge None)
              [PollFires; TimeoutFires; MutationNotified] s1 in
  promise s1 = settle_with (VStr "ready") (promise s)
  /\ timeoutTimer s1 = None
  /\ no_poller s1
  /\ evaluations s1 = S (evaluations s)
  /\ promise s2 = promise s1
  /\ evaluations s2 = evaluations s1
  /\ timersCreated s2 = timersCreated s1
  /\ framesRequested s2 = framesRequested s1.
Proof.
  apply (X4_truthy_poll_settles (ready_after 3) (Part003.merge None)
           0 4 (VStr "ready") [PollFires]
           [PollFires; TimeoutFires; MutationNotified]).
  - vm_compute. reflexivity.
  - vm_compute. discriminate.
  - vm_compute. reflexivity.
  - reflexivity.
Defined.

(** X5 at a predicate that turns truthy at its third call, in mutation
    mode: the second notification finds it truthy. *)
Lemma X5_truthy_notification_settles_witness :
  let s := Part003.run (ready_after 2)
             (Part003.merge (Some [("polling", VStr "mutation")]))
             [MutationNotified]
             (Part003.new_Promise (ready_after 2)
                (Part003.merge (Some [("polling", VStr "mutation")])) 0) in
  let s1 := Part003.step (ready_after 2)
              (Part003.merge (Some [("polling", VStr "mutation")]))
              MutationNotified s in
  let s2 := Part003.run (ready_after 2)
              (Part003.merge (Some [("polling", VStr "mutation")]))
              [MutationNotified; TimeoutFires; PollFires] s1 in
  promise s1 = settle_with (VStr "ready") (promise s)
  /\ timeoutTimer s1 = None
  /\ no_poller s1
  /\ evaluations s1 = S (evaluations s)
  /\ promise s2 = promise s1
  /\ evaluations s2 = evaluations s1
  /\ framesRequested s2 = 0.
Proof.
  apply (X5_truthy_notification_settles (ready_after 2)
           (Part003.merge (Some [("polling", VStr "mutation")]))
           0 3 (VStr "ready") [MutationNotified]
           [MutationNotified; TimeoutFires; PollFires]).
  - vm_compute. reflexivity.
  - vm_compute. reflexivity.
  - vm_compute. reflexivity.
  - reflexivity.
Defined.

(** X6 at the default options: the timeout fires between two frames. *)
Lemma X6_timeout_rejects_witness :
  let s := Part003.run never (Part003.merge None)
             [PollFires; TimeoutFires; PollFires]
             (Part003.new_Promise never (Part003.merge None) tt) in
  (if existsb is_timeout [PollFires; TimeoutFires; @PollFires unit]
   then promise s = Rejected (Part003.timeout_error (Part003.merge None))
        /\ timeoutTimer s = None
   else promise s = Pending
        /\ timeoutTimer s
           = Some (obj_get (Part003.merge None) "timeout"))
  /\ (forall n, obj_get (Part003.merge None) "timeout" = VNum n ->
        Part003.timeout_error (Part003.merge None)
        = JsError ("timeout of " ++ JsString.of_Z n
                   ++ "ms exceeded waiting for function to return true")).
Proof.
  apply (X6_timeout_rejects never (Part003.merge None)).
  - intros w. exists (VBool false), w. split; reflexivity.
  - vm_compute. reflexivity.
Defined.

(** X7 in mutation mode with two notifications among four events. *)
Lemma X7_mutation_mode_has_no_polling_loop_witness :
  let s := Part003.run never
             (Part003.merge (Some [("polling", VStr "mutation")]))
             [MutationNotified; PollFires; MutationNotified; TimeoutFires]
             (Part003.new_Promise never
                (Part003.merge (Some [("polling", VStr "mutation")])) tt)
  in
  evaluations s
  = 1 + count_events is_notification
          [MutationNotified; PollFires; MutationNotified;
           @TimeoutFires unit]
  /\ framesRequested s = 0
  /\ pollHandle s = None
  /\ observersCreated s = 1
  /\ observer s = true
  /\ timersCreated s
     = (if arms_timeout
             (Part003.merge (Some [("polling", VStr "mutation")]))
        then 1 else 0).
Proof.
  apply (X7_mutation_mode_has_no_polling_loop never
           (Part003.merge (Some [("polling", VStr "mutation")]))).
  - intros w. exists (VBool false), w. split; reflexivity.
  - vm_compute. reflexivity.
Defined.

(** X8 at [polling: 250]: two polls fire, then the timeout. *)
Lemma X8_polling_counts_witness :
  let s := Part003.run never
             (Part003.merge (Some [("polling", VNum 250)]))
             [PollFires; PollFires; TimeoutFires]
             (Part003.new_Promise never
                (Part003.merge (Some [("polling", VNum 250)])) tt) in
  let polls :=
    count_events is_poll [PollFires; PollFires; @TimeoutFires unit] in
  let armed :=
    if arms_timeout (Part003.merge (Some [("polling", VNum 250)]))
    then 1 else 0 in
  evaluations s = 2 + polls
  /\ pollHandle s
     = Some (mode_handle (Part003.merge (Some [("polling", VNum 250)])))
  /\ observersCreated s = 0
  /\ (if is_number
           (obj_get (Part003.merge (Some [("polling", VNum 250)]))
                    "polling")
      then framesRequested s = 0 /\ timersCreated s = armed + 1 + polls
      else framesRequested s = 1 + polls /\ timersCreated s = armed).
Proof.
  apply (X8_polling_counts never
           (Part003.merge (Some [("polling", VNum 250)]))).
  - intros w. exists (VBool false), w. split; reflexivity.
  - vm_compute. reflexivity.
Defined.

End EngineScenarios.

(** ** The locator of src/unnamed/part_003, further *)

Section LocatorFurther.
Variable sel_matches : string -> node -> bool.

(** [search] with a function that does not throw: the element itself
    when the function is truthy on one of its child text nodes, [null]
    otherwise; other children are not looked at. *)
Lemma search_total (element : node) (p : node -> completion value)
      (f : node -> value) :
  (forall child, p child = Normal (f child)) ->
  Part003.search element p
  = Normal (if existsb (fun child =>
                          (nodeType child =? TEXT_NODE)
                          && truthy (f child))
                       (childNodes element)
            then VNode element else VNull).
Proof.
  intros Hp. unfold Part003.search.
  induction (childNodes element) as [|child rest IH]; [reflexivity|].
  simpl. destruct (nodeType child =? TEXT_NODE); simpl; auto.
  rewrite Hp. simpl. destruct (truthy (f child)); auto.
Qed.

Lemma existsb_same (f g : node -> bool) (l : list node) :
  (forall n, f n = g n) -> existsb f l = existsb g l.
Proof.
  intros H. induction l as [|n r IH]; simpl; congruence.
Qed.

Lemma includes_in_empty (s : string) :
  s <> EmptyString -> JsString.includes EmptyString s = false.
Proof. destruct s; [congruence | reflexivity]. Qed.

Lemma search_contains (options : obj) (s : string) (element : node) :
  obj_get options "containsText" = VStr s -> s <> EmptyString ->
  Part003.search element (Part003.contains_predicate options)
  = Normal (if has_text_child_containing s element
            then VNode element else VNull).
Proof.
  intros C Hs.
  rewrite (search_total element _
             (fun child =>
                js_and (VStr (textContent child))
                  (js_and (obj_get options "containsText")
                     (VBool (JsString.includes (textContent child)
                               (to_string
                                  (obj_get options "containsText")))))))
    by reflexivity.
  unfold has_text_child_containing. do 2 f_equal.
  assert (E : forall l,
             existsb
               (fun child =>
                  (nodeType child =? TEXT_NODE)
                  && truthy
                       (js_and (VStr (textContent child))
                          (js_and (obj_get options "containsText")
                             (VBool
                                (JsString.includes (textContent child)
                                   (to_string
                                      (obj_get options "containsText")))))))
               l
             = existsb
                 (fun child =>
                    match child with
                    | TextNode data => JsString.includes data s
                    | _ => false
                    end) l).
  { induction l as [|child rest IH]; [reflexivity|].
    simpl. rewrite IH. f_equal.
    destruct child as [data|data|tag attrs children]; simpl; auto.
    rewrite C. unfold js_and. simpl.
    destruct (String.eqb data EmptyString) eqn:D; simpl.
    - apply String.eqb_eq in D. subst. now rewrite includes_in_empty.
    - destruct (String.eqb s EmptyString) eqn:S; simpl; auto.
      apply String.eqb_eq in S. congruence. }
  now rewrite E.
Qed.

Lemma search_matches (options : obj) (source : string)
      (test : string -> bool) (element : node) :
  obj_get options "matches" = VRegExp source test ->
  Part003.search element (Part003.matches_predicate options)
  = Normal (if has_text_child_matching test element
            then VNode element else VNull).
Proof.
  intros M.
  rewrite (search_total element _
             (fun child =>
                if truthy (VStr (textContent child))
                then VBool (test (JsString.trim (textContent child)))
                else VStr (textContent child))).
  - unfold has_text_child_matching.
    rewrite (existsb_same _
               (fun child =>
                  match child with
                  | TextNode data =>
                      negb (String.eqb data EmptyString)
                      && test (JsString.trim data)
                  | _ => false
                  end)); [reflexivity|].
    intros child.
    destruct child as [data|data|tag attrs children]; simpl; auto.
    destruct (String.eqb data EmptyString) eqn:D; simpl;
      rewrite ?D; auto.
  - intros child. unfold Part003.matches_predicate. rewrite M. simpl.
    now destruct (negb (String.eqb (textContent child) EmptyString)).
Qed.

Lemma search_exact_returns (options : obj) (element : node) :
  exists r, Part003.search element (Part003.exact_predicate options)
            = Normal r.
Proof.
  eexists.
  apply (search_total element _
           (fun child =>
              js_and (VStr (textContent child))
                (VBool (strict_eq_string (obj_get options "exactText")
                          (JsString.trim (textContent child)))))).
  reflexivity.
Qed.

(** X9.  src/unnamed/part_003, [containsText] set to a non-empty string
    [s] and no other matcher: the predicate of [$] returns the first
    element, in the order of [querySelectorAll], that has a child text
    node whose data, not trimmed, holds [s], and [null] when there is
    none.  Text inside child elements is not looked at. *)
Theorem X9_contains_text_first_match
        (selector : string) (options : obj) (document : node)
        (s : string) :
  s <> EmptyString ->
  obj_get options "containsText" = VStr s ->
  truthy (obj_get options "exactText") = false ->
  truthy (obj_get options "matches") = false ->
  Part003.dollar_predicate sel_matches selector (Some options) document
  = Normal (match find (has_text_child_containing s)
                       (querySelectorAll sel_matches document selector)
            with
            | Some element => VNode element
            | None => VNull
            end).
Proof.
  intros Hs C X M.
  assert (T : truthy (obj_get options "containsText") = true).
  { rewrite C. simpl. apply negb_true_iff, String.eqb_neq. exact Hs. }
  unfold Part003.dollar_predicate. rewrite X, T, M. simpl.
  generalize VUndefined as result.
  induction (querySelectorAll sel_matches document selector)
    as [|element rest IH]; intros result; [reflexivity|].
  simpl. rewrite X, T, M. simpl.
  destruct (search_exact_returns options element) as [r1 R1].
  rewrite R1. simpl.
  rewrite (search_contains options s element C Hs). simpl.
  destruct (has_text_child_containing s element); simpl; auto.
Qed.

(** X10.  src/unnamed/part_003, [matches] set to a regular expression
    and no other matcher: the predicate of [$] returns the first element
    that has a child text node which is not empty and whose trimmed data
    passes the expression, and [null] when there is none.  An empty text
    node is never tested, also not against an expression that matches
    the empty string. *)
Theorem X10_matches_first_match
        (selector : string) (options : obj) (document : node)
        (source : string) (test : string -> bool) :
  obj_get options "matches" = VRegExp source test ->
  truthy (obj_get options "exactText") = false ->
  truthy (obj_get options "containsText") = false ->
  Part003.dollar_predicate sel_matches selector (Some options) document
  = Normal (match find (has_text_child_matching test)
                       (querySelectorAll sel_matches document selector)
            with
            | Some element => VNode element
            | None => VNull
            end).
Proof.
  intros M X C.
  unfold Part003.dollar_predicate. rewrite X, C, M. simpl.
  generalize VUndefined as result.
  induction (querySelectorAll sel_matches document selector)
    as [|element rest IH]; intros result; [reflexivity|].
  simpl. rewrite X, C, M. simpl.
  rewrite (search_matches options source test element M). simpl.
  destruct (has_text_child_matching test element); simpl; auto.
Qed.

End LocatorFurther.

Section LocatorScenarios.
Import Examples Scenarios.

(** X9 at [containsText: "42"] on the page of totals: the first
    paragraph holds the text node " 42 items ". *)
Lemma X9_contains_text_first_match_witness :
  Part003.dollar_predicate type_selector_matches "p"
    (Some [("containsText", VStr "42")]) totals_page
  = Normal (match find (has_text_child_containing "42")
                       (querySelectorAll type_selector_matches
                          totals_page "p")
            with
            | Some element => VNode element
            | None => VNull
            end).
Proof.
  apply (X9_contains_text_first_match type_selector_matches "p"
           [("containsText", VStr "42")] totals_page "42");
    try reflexivity. discriminate.
Defined.

(** X10 at an expression that passes the empty string only, on the page
    of totals, whose second paragraph holds an empty text node. *)
Lemma X10_matches_first_match_witness :
  Part003.dollar_predicate type_selector_matches "p"
    (Some [("matches", VRegExp "^$" (fun s => String.eqb s EmptyString))])
    totals_page
  = Normal (match find (has_text_child_matching
                          (fun s => String.eqb s EmptyString))
                       (querySelectorAll type_selector_matches
                          totals_page "p")
            with
            | Some element => VNode element
            | None => VNull
            end).
Proof.
  apply (X10_matches_first_match type_selector_matches "p"
           [("matches", VRegExp "^$" (fun s => String.eqb s EmptyString))]
           totals_page "^$"); reflexivity.
Defined.

(** On the page of totals nothing is found: the empty text node of the
    second paragraph is skipped. *)
Example empty_text_node_is_not_tested :
  Part003.dollar_predicate type_selector_matches "p"
    (Some [("matches", VRegExp "^$" (fun s => String.eqb s EmptyString))])
    totals_page
  = Normal VNull.
Proof. reflexivity. Qed.

End LocatorScenarios.

(** ** Trimming *)

Section Trimming.

Lemma drop_white_app (l r : list ascii) (a : ascii) :
  JsString.is_white_space a = false ->
  JsString.drop_white (l ++ a :: r)%list
  = (JsString.drop_white l ++ a :: r)%list.
Proof.
  intros Ha. induction l as [|c l IH]; simpl.
  - now rewrite Ha.
  - destruct (JsString.is_white_space c); auto.
Qed.

Lemma drop_white_head (l : list ascii) :
  JsString.drop_white l = []
  \/ exists a r, JsString.drop_white l = a :: r
                 /\ JsString.is_white_space a = false.
Proof.
  induction l as [|c l IH]; simpl; auto.
  destruct (JsString.is_white_space c) eqn:W; auto.
  right. now exists c, l.
Qed.

Lemma drop_white_twice (l : list ascii) :
  JsString.drop_white (JsString.drop_white l) = JsString.drop_white l.
Proof.
  destruct (drop_white_head l) as [E | (a & r & E & W)]; rewrite E; auto.
  simpl. now rewrite W.
Qed.

(** [trim] applied twice is [trim]. *)
Lemma trim_twice (s : string) :
  JsString.trim (JsString.trim s) = JsString.trim s.
Proof.
  unfold JsString.trim. rewrite list_ascii_of_string_of_list_ascii.
  f_equal.
  destruct (drop_white_head (list_ascii_of_string s))
    as [E | (a & r & E & W)]; rewrite E; [reflexivity|].
  assert (HB : JsString.drop_white (rev (a :: r))
               = (JsString.drop_white (rev r) ++ [a])%list)
    by (simpl; now apply drop_white_app).
  assert (R : rev (JsString.drop_white (rev r) ++ [a])%list
              = a :: rev (JsString.drop_white (rev r)))
    by (now rewrite rev_app_distr).
  assert (D : JsString.drop_white (a :: rev (JsString.drop_white (rev r)))
              = a :: rev (JsString.drop_white (rev r)))
    by (simpl; now rewrite W).
  assert (R2 : rev (a :: rev (JsString.drop_white (rev r)))
               = (JsString.drop_white (rev r) ++ [a])%list)
    by (simpl; now rewrite rev_involutive).
  rewrite HB, R, D, R2.
  rewrite (drop_white_app _ [] a W), drop_white_twice. exact R.
Qed.

Lemma trimmed_text_trimmed (n : node) :
  exists x, Part003.trimmed_text n = VStr x /\ is_trimmed x.
Proof.
  unfold Part003.trimmed_text, js_and, is_trimmed. simpl.
  destruct (String.eqb (textContent n) EmptyString) eqn:E; simpl.
  - apply String.eqb_eq in E. rewrite E. now exists EmptyString.
  - eexists. split; [reflexivity|]. apply trim_twice.
Qed.

End Trimming.

(** ** The table helpers, further *)

Section TablesFurther.
Variable sel_matches : string -> node -> bool.

(** X11.  [$table] of src/unnamed/part_003 and of src/portascrape.js:
    the result has one array for each [tr] under the table, in document
    order, and the array of a row has one entry for each of its [td] and
    [th] cells, in order; each entry is a string that carries no white
    space at either end.  A table without rows gives the empty array. *)
Theorem X11_table_shape (table : node) :
  let rows := querySelectorAll sel_matches table "tr" in
  (length (Part003.ps_table sel_matches table) = length rows
   /\ (forall r row,
         nth_error rows r = Some row ->
         exists cells,
           nth_error (Part003.ps_table sel_matches table) r = Some cells
           /\ length cells
              = length (querySelectorAll sel_matches row "td, th"))
   /\ (forall cells v,
         In cells (Part003.ps_table sel_matches table) -> In v cells ->
         exists x, v = VStr x /\ is_trimmed x))
  /\ (length (Portascrape.ps_table sel_matches table) = length rows
      /\ (forall r row,
            nth_error rows r = Some row ->
            exists cells,
              nth_error (Portascrape.ps_table sel_matches table) r
              = Some cells
              /\ length cells
                 = length (querySelectorAll sel_matches row "td, th"))
      /\ (forall cells v,
            In cells (Portascrape.ps_table sel_matches table) ->
            In v cells ->
            exists x, v = VStr x /\ is_trimmed x)).
Proof.
  intros rows. split; (split; [| split]).
  - apply length_map.
  - intros r row H. eexists. unfold Part003.ps_table. fold rows.
    rewrite nth_error_map, H. split; [reflexivity|]. apply length_map.
  - intros cells v Hc Hv. unfold Part003.ps_table in Hc.
    apply in_map_iff in Hc as [row [<- _]].
    apply in_map_iff in Hv as [cell [<- _]].
    apply trimmed_text_trimmed.
  - apply length_map.
  - intros r row H. eexists. unfold Portascrape.ps_table. fold rows.
    rewrite nth_error_map, H. split; [reflexivity|]. apply length_map.
  - intros cells v Hc Hv. unfold Portascrape.ps_table in Hc.
    apply in_map_iff in Hc as [row [<- _]].
    apply in_map_iff in Hv as [cell [<- _]].
    eexists. split; [reflexivity|]. apply trim_twice.
Qed.






End TablesFurther.

(** ** Whole calls of the locator *)

Section WholeCalls.
Variable sel_matches : string -> node -> bool.

(** X13.  src/portascrape.js lets a string pass as [matches] and a
    regular expression pass as [containsText]; the call of [$] then makes
    a promise that is rejected at once with a type error, without a timer,
    as soon as the selector matches an element: the predicate calls
    [test] on the string, and [includes] with the expression. *)
Theorem X13_portascrape_accepted_matcher_throws
        (selector : string) (document element : node) (rest : list node)
        (s source : string) (test : string -> bool) :
  querySelectorAll sel_matches document selector = element :: rest ->
  s <> EmptyString ->
  (Portascrape.validateOptions
     (Portascrape.merge (Some [("matches", VStr s)])) = Normal tt
   /\ exists st,
       Portascrape.ps_dollar sel_matches selector
         (Some [("matches", VStr s)]) document = Normal st
       /\ promise st
          = Rejected (JsTypeError "options.matches.test is not a function")
       /\ evaluations st = 1 /\ timersCreated st = 0
       /\ framesRequested st = 0)
  /\ (Portascrape.validateOptions
        (Portascrape.merge (Some [("containsText", VRegExp source test)]))
      = Normal tt
      /\ exists st e,
          Portascrape.ps_dollar sel_matches selector
            (Some [("containsText", VRegExp source test)]) document
          = Normal st
          /\ promise st = Rejected (JsTypeError e)
          /\ evaluations st = 1 /\ timersCreated st = 0
          /\ framesRequested st = 0).
Proof.
  intros Q Hs.
  assert (P1 : Portascrape.dollar_predicate sel_matches selector
                 (Some [("matches", VStr s)]) document
               = Throw (JsTypeError
                          "options.matches.test is not a function")).
  { destruct s as [|c s']; [congruence|].
    unfold Portascrape.dollar_predicate. rewrite Q. reflexivity. }
  assert (P2 : exists e,
             Portascrape.dollar_predicate sel_matches selector
               (Some [("containsText", VRegExp source test)]) document
             = Throw (JsTypeError e)).
  { eexists. unfold Portascrape.dollar_predicate. rewrite Q. simpl.
    reflexivity. }
  destruct P2 as [e P2].
  split; (split; [reflexivity|]).
  - eexists.
    unfold Portascrape.ps_dollar, Portascrape.waitForFunction.
    change (Portascrape.validateOptions
              (Portascrape.merge (Some [("matches", VStr s)])))
      with (@Normal unit tt).
    unfold bind, Portascrape.new_Promise, Portascrape.executor, call.
    cbn [world initial]. rewrite P1.
    repeat split; reflexivity.
  - exists (reject (JsTypeError e)
              (mkWstate document Pending None false None 1 0 0 0 [])), e.
    unfold Portascrape.ps_dollar, Portascrape.waitForFunction.
    change (Portascrape.validateOptions
              (Portascrape.merge
                 (Some [("containsText", VRegExp source test)])))
      with (@Normal unit tt).
    unfold bind, Portascrape.new_Promise, Portascrape.executor, call.
    cbn [world initial]. rewrite P2.
    repeat split; reflexivity.
Qed.

(** X14.  src/unnamed/part_002, [$(selector)] without options.  When
    the selector matches, the promise is resolved at once with the first
    match in document order, and no timer, frame or observer is made.
    When it matches nothing, the promise is pending after two calls of
    the predicate, with the timeout armed at 10000 ms and an animation
    frame requested; if the document then comes to hold a match, the
    next frame resolves the promise with the first match, clears the
    timeout and leaves nothing scheduled. *)
Theorem X14_part002_locate (selector : string) (document : node) :
  let fn := Part002Locator.dollar_fn sel_matches selector None in
  match querySelector sel_matches document selector with
  | Some element =>
      exists st,
        Part002Locator.ps_dollar sel_matches selector None document
        = Normal st
        /\ promise st = Resolved (VNode element)
        /\ evaluations st = 1 /\ timersCreated st = 0
        /\ framesRequested st = 0 /\ observersCreated st = 0
  | None =>
      exists st,
        Part002Locator.ps_dollar sel_matches selector None document
        = Normal st
        /\ promise st = Pending
        /\ timeoutTimer st = Some (VNum 10000)
        /\ pollHandle st = Some ByFrame
        /\ evaluations st = 2
        /\ forall (later element : node),
            querySelector sel_matches later selector = Some element ->
            let st' :=
              Part002.run fn (Part002.merge None)
                [WorldChanges later; PollFires] st in
            promise st' = Resolved (VNode element)
            /\ timeoutTimer st' = None
            /\ no_poller st'
            /\ evaluations st' = 3
  end.
Proof.
  intros fn.
  unfold Part002Locator.ps_dollar, Part002.wait.
  change (Part002.validateOptions (Part002.merge None))
    with (@Normal unit tt).
  simpl bind.
  change (Part002.merge None)
    with [("timeout", VNum 10000); ("polling", VStr "raf")].
  destruct (querySelector sel_matches document selector) as [element|]
    eqn:Q.
  - eexists. split; [reflexivity|].
    unfold Part002.new_Promise, Part002.executor, call,
      Part002Locator.dollar_fn, Part002Locator.dollar_predicate.
    simpl. rewrite Q. simpl. repeat split; reflexivity.
  - eexists. split; [reflexivity|].
    unfold Part002.new_Promise, Part002.executor, call,
      Part002Locator.dollar_fn, Part002Locator.dollar_predicate.
    simpl. rewrite Q. simpl.
    unfold Part002.poll, call. simpl. rewrite Q. simpl.
    repeat split; try reflexivity.
    all: unfold fn, Part002Locator.dollar_fn,
           Part002Locator.dollar_predicate, Part002.poll, call;
         simpl; rewrite H; reflexivity.
Qed.

End WholeCalls.

Section WholeCallScenarios.
Import Examples Scenarios.

(** X13 at the page [<body><p>hello</p></body>]. *)
Lemma X13_portascrape_accepted_matcher_throws_witness :
  (Portascrape.validateOptions
     (Portascrape.merge (Some [("matches", VStr "hello")])) = Normal tt
   /\ exists st,
       Portascrape.ps_dollar type_selector_matches "p"
         (Some [("matches", VStr "hello")]) hello_page = Normal st
       /\ promise st
          = Rejected (JsTypeError "options.matches.test is not a function")
       /\ evaluations st = 1 /\ timersCreated st = 0
       /\ framesRequested st = 0)
  /\ (Portascrape.validateOptions
        (Portascrape.merge
           (Some [("containsText",
                   VRegExp "ell" (fun t => JsString.includes t "ell"))]))
      = Normal tt
      /\ exists st e,
          Portascrape.ps_dollar type_selector_matches "p"
            (Some [("containsText",
                    VRegExp "ell" (fun t => JsString.includes t "ell"))])
            hello_page
          = Normal st
          /\ promise st = Rejected (JsTypeError e)
          /\ evaluations st = 1 /\ timersCreated st = 0
          /\ framesRequested st = 0).
Proof.
  apply (X13_portascrape_accepted_matcher_throws type_selector_matches
           "p" hello_page (leaf "p" "hello") [] "hello" "ell"
           (fun t => JsString.includes t "ell")).
  - reflexivity.
  - discriminate.
Defined.

(** On a page that is still loading the heading is not there; once the
    page holds two headings the next frame resolves with the first. *)
Example locate_after_load :
  exists st,
    Part002Locator.ps_dollar type_selector_matches "h1" None loading_page
    = Normal st
    /\ promise st = Pending
    /\ promise
         (Part002.run
            (Part002Locator.dollar_fn type_selector_matches "h1" None)
            (Part002.merge None)
            [WorldChanges loaded_page; PollFires] st)
       = Resolved (VNode (leaf "h1" "Example Domain")).
Proof. eexists. repeat split. Qed.

End WholeCallScenarios.

(** ** The text of a located element *)

Section LocatedText.
Variable sel_matches : string -> node -> bool.

Lemma string_append_assoc (a b c : string) :
  ((a ++ b) ++ c)%string = (a ++ b ++ c)%string.
Proof. induction a as [|x a IH]; simpl; congruence. Qed.

Lemma substring_middle (a s b : string) :
  substring (String.length a) (String.length s) (a ++ s ++ b)%string = s.
Proof.
  induction a as [|x a IH]; simpl; auto.
  induction s as [|y s IHs]; simpl; [now destruct b | congruence].
Qed.

(** A string holds what stands in its middle. *)
Lemma includes_middle (a s b : string) :
  s <> EmptyString -> JsString.includes (a ++ s ++ b)%string s = true.
Proof.
  intros Hs. unfold JsString.includes.
  destruct (String.index 0 s (a ++ s ++ b)%string) eqn:I; auto.
  exfalso.
  apply (index_correct3 0 (String.length a) s _ I Hs (Nat.le_0_l _)).
  apply substring_middle.
Qed.

Lemma string_of_list_app (l1 l2 : list ascii) :
  string_of_list_ascii (l1 ++ l2)%list
  = (string_of_list_ascii l1 ++ string_of_list_ascii l2)%string.
Proof. induction l1 as [|c l1 IH]; simpl; congruence. Qed.

Lemma drop_white_suffix (l : list ascii) :
  exists white, l = (white ++ JsString.drop_white l)%list.
Proof.
  induction l as [|c l [white IH]]; [now exists []|].
  simpl. destruct (JsString.is_white_space c).
  - exists (c :: white). simpl. congruence.
  - now exists [].
Qed.

(** A string is its trimmed form between two runs of white space. *)
Lemma trim_inside (s : string) :
  exists before after,
    s = (before ++ JsString.trim s ++ after)%string.
Proof.
  destruct (drop_white_suffix (list_ascii_of_string s)) as [wp Hp].
  destruct (drop_white_suffix
              (rev (JsString.drop_white (list_ascii_of_string s))))
    as [wq Hq].
  exists (string_of_list_ascii wp), (string_of_list_ascii (rev wq)).
  unfold JsString.trim.
  rewrite <- !string_of_list_app.
  rewrite <- (string_of_list_ascii_of_string s) at 1. f_equal.
  rewrite <- rev_app_distr, <- Hq, rev_involutive. exact Hp.
Qed.

(** The text of an element holds the data of each of its child text
    nodes. *)
Lemma text_child_inside (tag : string) (attrs : list (string * string))
      (children : list node) (data : string) :
  In (TextNode data) children ->
  exists before after,
    textContent (Element tag attrs children)
    = (before ++ data ++ after)%string.
Proof.
  induction children as [|child rest IH]; intros H; [destruct H|].
  destruct H as [->|H].
  - exists EmptyString.
    exists (textContent (Element tag attrs rest)). reflexivity.
  - destruct (IH H) as (before & after & E).
    destruct child as [d|d|t a c].
    + exists (d ++ before)%string, after.
      change (textContent (Element tag attrs (TextNode d :: rest)))
        with (d ++ textContent (Element tag attrs rest))%string.
      now rewrite E, string_append_assoc.
    + exists before, after. exact E.
    + exists (textContent (Element t a c) ++ before)%string, after.
      change (textContent (Element tag attrs (Element t a c :: rest)))
        with (textContent (Element t a c)
              ++ textContent (Element tag attrs rest))%string.
      now rewrite E, string_append_assoc.
Qed.

Lemma exact_child_text_inside (s : string) (element : node) :
  s <> EmptyString -> has_text_child_equal s element = true ->
  JsString.includes (textContent element) s = true.
Proof.
  intros Hs H. unfold has_text_child_equal in H.
  apply existsb_exists in H as [child [Hin Hc]].
  destruct child as [data| |]; try discriminate.
  apply String.eqb_eq in Hc.
  destruct element as [| |tag attrs children]; try destruct Hin.
  simpl in Hin.
  destruct (text_child_inside tag attrs children data Hin)
    as (before & after & E).
  destruct (trim_inside data) as (w1 & w2 & D).
  rewrite Hc in D. rewrite E, D, !string_append_assoc.
  rewrite <- (string_append_assoc before w1).
  now apply includes_middle.
Qed.

(** X15.  src/unnamed/part_003, [$text] after [$] with [exactText] set
    to a non-empty string [s] and no other matcher: when the predicate of
    [$] returns an element, the text [$text] hands back for it is the
    whole text of the element, children included and not trimmed, and it
    holds [s]. *)
Theorem X15_text_of_exact_match
        (selector : string) (options : obj) (document element : node)
        (s : string) :
  s <> EmptyString ->
  obj_get options "exactText" = VStr s ->
  truthy (obj_get options "containsText") = false ->
  truthy (obj_get options "matches") = false ->
  Part003.dollar_predicate sel_matches selector (Some options) document
  = Normal (VNode element) ->
  Part003Text.ps_text element = VStr (textContent element)
  /\ JsString.includes (textContent element) s = true
  /\ In element (querySelectorAll sel_matches document selector).
Proof.
  intros Hs X C M P.
  assert (T : truthy (obj_get options "exactText") = true).
  { rewrite X. simpl. apply negb_true_iff, String.eqb_neq. exact Hs. }
  unfold Part003.dollar_predicate in P. rewrite T in P. simpl in P.
  rewrite (first_by_text_exact options s X Hs C M) in P.
  destruct (find (has_text_child_equal s)
                 (querySelectorAll sel_matches document selector))
    as [found|] eqn:F; [|discriminate].
  injection P as ->. apply find_some in F as [Hin H].
  split; [reflexivity|]. split; auto.
  now apply exact_child_text_inside.
Qed.

End LocatedText.

Section LocatedTextScenario.
Import Examples Scenarios.

(** X15 at [exactText: "42 items"] on the page of totals: the text of
    the paragraph found is "Total: 42 items ". *)
Lemma X15_text_of_exact_match_witness :
  Part003Text.ps_text
    (Element "p" []
       [Element "b" [] [TextNode "Total:"]; TextNode " 42 items "])
  = VStr (textContent
            (Element "p" []
               [Element "b" [] [TextNode "Total:"];
                TextNode " 42 items "]))
  /\ JsString.includes
       (textContent
          (Element "p" []
             [Element "b" [] [TextNode "Total:"]; TextNode " 42 items "]))
       "42 items" = true
  /\ In (Element "p" []
           [Element "b" [] [TextNode "Total:"]; TextNode " 42 items "])
        (querySelectorAll type_selector_matches totals_page "p").
Proof.
  apply (X15_text_of_exact_match type_selector_matches "p"
           [("exactText", VStr "42 items")] totals_page
           (Element "p" []
              [Element "b" [] [TextNode "Total:"]; TextNode " 42 items "])
           "42 items"); try reflexivity. discriminate.
Defined.

End LocatedTextScenario.

(** ** The locators of the other snapshots *)

Section OtherLocators.
Variable sel_matches : string -> node -> bool.

(** [search] of src/unnamed/part_002 with a function that is never
    truthy ends in [undefined]. *)
Lemma part002_search_nothing (element : node)
      (p : node -> completion value) :
  (forall child, exists r, p child = Normal r /\ truthy r = false) ->
  Part002Locator.search element p = Normal VUndefined.
Proof.
  intros Hp. unfold Part002Locator.search.
  induction (childNodes element) as [|child rest IH]; [reflexivity|].
  simpl. destruct (nodeType child =? TEXT_NODE); auto.
  destruct (Hp child) as (r & E & T). rewrite E. simpl. now rewrite T.
Qed.

(** X16.  src/unnamed/part_002: a value of [exactText] that is truthy
    but not a string, say the number 42, passes [validateOptions], and
    the predicate of [$] then returns [null] on every document, whatever
    the selector matches: such a call can only end by its timeout. *)
Theorem X16_part002_non_string_exact_text_never_matches
        (selector : string) (v : value) (document : node) :
  truthy v = true -> is_string v = false ->
  Part002.validateOptions (Part002.merge (Some [("exactText", v)]))
  = Normal tt
  /\ Part002Locator.dollar_predicate sel_matches selector
       (Some [("exactText", v)]) document
     = Normal VNull.
Proof.
  intros T NS. split; [reflexivity|].
  unfold Part002Locator.dollar_predicate.
  change (obj_get [("exactText", v)] "exactText") with v.
  change (obj_get [("exactText", v)] "containsText") with VUndefined.
  change (obj_get [("exactText", v)] "matches") with VUndefined.
  rewrite T. simpl.
  generalize VUndefined as result.
  induction (querySelectorAll sel_matches document selector)
    as [|element rest IH]; intros result; [reflexivity|].
  cbn [Part002Locator.first_by_text].
  change (obj_get [("exactText", v)] "exactText") with v.
  change (obj_get [("exactText", v)] "containsText") with VUndefined.
  change (obj_get [("exactText", v)] "matches") with VUndefined.
  rewrite T. simpl.
  rewrite part002_search_nothing.
  - simpl. apply IH.
  - intros child. eexists. split; [reflexivity|].
    change (obj_get [("exactText", v)] "exactText") with v.
    destruct v; simpl in *; auto; discriminate.
Qed.

(** X17.  src/portascrape.js, [exactText] set to a non-empty string [s]
    and no other matcher: the predicate of [$] returns the first element,
    in the order of [querySelectorAll], whose whole text, children
    included and not trimmed, is [s], and [null] when there is none. *)
Theorem X17_portascrape_exact_text_whole_text
        (selector : string) (options : obj) (document : node)
        (s : string) :
  s <> EmptyString ->
  obj_get options "exactText" = VStr s ->
  truthy (obj_get options "containsText") = false ->
  truthy (obj_get options "matches") = false ->
  Portascrape.dollar_predicate sel_matches selector (Some options) document
  = Normal (match find (fun element =>
                          String.eqb (textContent element) s)
                       (querySelectorAll sel_matches document selector)
            with
            | Some element => VNode element
            | None => VNull
            end).
Proof.
  intros Hs X C M.
  assert (T : truthy (obj_get options "exactText") = true).
  { rewrite X. simpl. apply negb_true_iff, String.eqb_neq. exact Hs. }
  unfold Portascrape.dollar_predicate. rewrite T. simpl.
  induction (querySelectorAll sel_matches document selector)
    as [|element rest IH]; [reflexivity|].
  simpl. rewrite T, C, M, X. simpl.
  rewrite (String.eqb_sym s).
  destruct (String.eqb (textContent element) s); simpl; auto.
Qed.

End OtherLocators.

Section OtherLocatorScenarios.
Import Examples Scenarios.

(** X16 at [exactText: 42] on the page of totals. *)
Lemma X16_part002_non_string_exact_text_never_matches_witness :
  Part002.validateOptions (Part002.merge (Some [("exactText", VNum 42)]))
  = Normal tt
  /\ Part002Locator.dollar_predicate type_selector_matches "p"
       (Some [("exactText", VNum 42)]) totals_page
     = Normal VNull.
Proof.
  apply (X16_part002_non_string_exact_text_never_matches
           type_selector_matches "p" (VNum 42) totals_page);
    reflexivity.
Defined.

(** X17 at [exactText: "Example Domain"] on the example page: the first
    heading, whose text sits in a child element, is the one found. *)
Lemma X17_portascrape_exact_text_whole_text_witness :
  Portascrape.dollar_predicate type_selector_matches "h1"
    (Some [("exactText", VStr "Example Domain")]) example_page
  = Normal (match find (fun element =>
                          String.eqb (textContent element)
                                     "Example Domain")
                       (querySelectorAll type_selector_matches
                          example_page "h1")
            with
            | Some element => VNode element
            | None => VNull
            end).
Proof.
  apply (X17_portascrape_exact_text_whole_text type_selector_matches "h1"
           [("exactText", VStr "Example Domain")] example_page
           "Example Domain"); try reflexivity. discriminate.
Defined.

End OtherLocatorScenarios.
